(** * Book catalog service: method router, data-access layer and handlers

    A shallow embedding of [server/cmd/main.go] (the catalog service) and of
    the nginx configuration in front of it (the method router), with the
    properties of the specification proved or refuted against them.

    Layout of the development:
    - [Hex]       : Go's [encoding/hex], as far as [ObjectID] uses it;
    - [ObjectID]  : the driver's 12-byte identifier, [ObjectIDFromHex], [Hex];
    - records     : [BookStore] (persisted form) and [Book] (wire form);
    - [Mongo]     : the driver calls the service makes, on a collection;
    - the functions of [main.go], in the order of the source;
    - the handlers registered in [main], as state-passing functions;
    - start-up    : [prepareDatabase], [prepareData] and the head of [main];
    - [Router]    : the [server] block of the nginx configuration;
    - the theorems. *)

From Stdlib Require Import ZArith NArith Ascii String List Bool Lia.
From stdpp Require Import base tactics decidable option list strings gmap fin_maps.

Local Open Scope string_scope.

(** ** Errors

    The Go [error] values that occur on the paths modelled here. *)
Inductive error : Type :=
  | ErrLength                       (* encoding/hex: odd length hex string *)
  | InvalidByteError (c : ascii)    (* encoding/hex: invalid byte *)
  | ErrInvalidHex                   (* primitive: not a valid ObjectID *)
  | ErrNoDocuments                  (* mongo: no documents in result *)
  | DuplicateKey                    (* server error E11000 on _id *)
  | NamespaceExists                 (* server error on create *)
  | ServerSelectionError.           (* driver: no reachable server *)

(** ** encoding/hex *)
Module Hex.

Definition hextable : string := "0123456789abcdef".

(** [hextable[n]]; the index is a nibble, so always in range. *)
Definition hexDigit (n : N) : ascii :=
  default "0"%char (String.get (N.to_nat n) hextable).

(** [Encode]: two characters per source byte,
    [hextable[v>>4]] then [hextable[v&0x0f]]. *)
Fixpoint Encode (src : list ascii) : list ascii :=
  match src with
  | [] => []
  | v :: rest =>
      hexDigit (N.shiftr (N_of_ascii v) 4)
      :: hexDigit (N.land (N_of_ascii v) 15)
      :: Encode rest
  end.

(** [fromHexChar]: the value of a hex digit, in either case. *)
Definition fromHexChar (c : ascii) : option N :=
  let n := N_of_ascii c in
  if (48 <=? n)%N && (n <=? 57)%N then Some (n - 48)%N
  else if (97 <=? n)%N && (n <=? 102)%N then Some (n - 97 + 10)%N
  else if (65 <=? n)%N && (n <=? 70)%N then Some (n - 65 + 10)%N
  else None.

(** [Decode]: pairs of digits to bytes, [(a << 4) | b]; the first invalid
    character is reported, and an odd length after that. *)
Fixpoint Decode (src : list ascii) : list ascii + error :=
  match src with
  | [] => inl []
  | [p] =>
      match fromHexChar p with
      | None => inr (InvalidByteError p)
      | Some _ => inr ErrLength
      end
  | p :: q :: rest =>
      match fromHexChar p with
      | None => inr (InvalidByteError p)
      | Some a =>
          match fromHexChar q with
          | None => inr (InvalidByteError q)
          | Some b =>
              match Decode rest with
              | inl bytes => inl (ascii_of_N (N.lor (N.shiftl a 4) b) :: bytes)
              | inr e => inr e
              end
          end
      end
  end.

End Hex.

(** ** primitive.ObjectID

    [type ObjectID [12]byte]: exactly twelve bytes. *)
Record ObjectID : Type := mkObjectID {
  b0 : ascii; b1 : ascii; b2 : ascii; b3 : ascii;
  b4 : ascii; b5 : ascii; b6 : ascii; b7 : ascii;
  b8 : ascii; b9 : ascii; b10 : ascii; b11 : ascii
}.

Definition bytesOf (id : ObjectID) : list ascii :=
  [b0 id; b1 id; b2 id; b3 id; b4 id; b5 id;
   b6 id; b7 id; b8 id; b9 id; b10 id; b11 id].

(** [NilObjectID]: the zero value. *)
Definition NilObjectID : ObjectID :=
  let z := zero in mkObjectID z z z z z z z z z z z z.

#[global] Instance ObjectID_eq_dec : EqDecision ObjectID.
Proof. solve_decision. Defined.

(** [IsZero]: what [omitempty] asks of an [ObjectID]. *)
Definition IsZero (id : ObjectID) : bool := bool_decide (id = NilObjectID).

(** [ObjectIDFromHex]: returns the pair [(ObjectID, error)] of the Go
    function; on failure the identifier is [NilObjectID]. A string of 24
    hex digits decodes to twelve bytes, so the last case does not occur. *)
Definition ObjectIDFromHex (s : string) : ObjectID * option error :=
  if negb (String.length s =? 24)%nat then (NilObjectID, Some ErrInvalidHex)
  else
    match Hex.Decode (list_ascii_of_string s) with
    | inr e => (NilObjectID, Some e)
    | inl [x0; x1; x2; x3; x4; x5; x6; x7; x8; x9; x10; x11] =>
        (mkObjectID x0 x1 x2 x3 x4 x5 x6 x7 x8 x9 x10 x11, None)
    | inl _ => (NilObjectID, Some ErrInvalidHex)
    end.

(** [(id ObjectID) Hex()]: 24 lower-case hex characters. *)
Definition Hex (id : ObjectID) : string :=
  string_of_list_ascii (Hex.Encode (bytesOf id)).

(** ** The two record shapes *)

(** [type BookStore struct]: the persisted form. Go's [int] fields are
    only copied and compared, never computed with; they are integers. *)
Record BookStore : Type := mkBookStore {
  ID : ObjectID;          (* `bson:"_id,omitempty"` *)
  BookName : string;
  BookAuthor : string;
  BookISBN : string;
  BookPages : Z;
  BookYear : Z
}.

(** [type Book struct]: the wire form. Its identifier field is [ID] in the
    source (JSON key [id]); here [Book_ID], the name [ID] being taken by
    [BookStore]. *)
Record Book : Type := mkBook {
  Book_ID : string;       (* `json:"id"` *)
  Name : string;          (* `json:"name"` *)
  Author : string;        (* `json:"author"` *)
  ISBN : string;          (* `json:"isbn"` *)
  Pages : Z;              (* `json:"pages"` *)
  Year : Z                (* `json:"year"` *)
}.

#[global] Instance BookStore_eq_dec : EqDecision BookStore.
Proof. solve_decision. Defined.

(** The values the service puts under [interface{}]: in the
    [map[string]interface{}] results and in the [bson.M] filters. *)
Inductive Value : Type :=
  | VString (s : string)
  | VInt (n : Z)
  | VObjectID (id : ObjectID).

#[global] Instance Value_eq_dec : EqDecision Value.
Proof. solve_decision. Defined.

(** ** The document store, as the service drives it

    [*mongo.Collection] is a handle on a collection of a store that answers.
    A collection is modelled by its documents in the store's natural order.
    The service writes documents encoded from [BookStore] only, so a stored
    document is a [BookStore] whose [ID] is its [_id]. The errors left on
    these calls are the store's own: no document for [FindOne], a second
    document with an [_id] already there for [InsertOne]. *)
Module Mongo.

(** The BSON document of a stored record: the driver names a field
    without tag by its lower-cased Go name. *)
Definition document (d : BookStore) : gmap string Value :=
  list_to_map
    [("_id", VObjectID (ID d));
     ("bookname", VString (BookName d));
     ("bookauthor", VString (BookAuthor d));
     ("bookisbn", VString (BookISBN d));
     ("bookpages", VInt (BookPages d));
     ("bookyear", VInt (BookYear d))].

(** An equality filter ([bson.M] of field to value) selects the
    documents that hold every one of its values. [bson.D{{}}], the empty
    filter, selects all. *)
Definition matches (filter : gmap string Value) (d : BookStore) : bool :=
  bool_decide (map_Forall (λ k v, document d !! k = Some v) filter).

(** [coll.Find(ctx, filter)] followed by [cursor.All]. *)
Definition Find (coll : list BookStore) (filter : gmap string Value)
  : list BookStore :=
  List.filter (matches filter) coll.

(** [coll.FindOne(ctx, filter)]: the first match, or [ErrNoDocuments]
    in the result's [Err()]. *)
Definition FindOne (coll : list BookStore) (filter : gmap string Value)
  : BookStore + error :=
  match List.find (matches filter) coll with
  | Some d => inl d
  | None => inr ErrNoDocuments
  end.

Definition hasID (id : ObjectID) (d : BookStore) : bool :=
  bool_decide (ID d = id).

Definition withID (id : ObjectID) (d : BookStore) : BookStore :=
  mkBookStore id (BookName d) (BookAuthor d) (BookISBN d)
              (BookPages d) (BookYear d).

(** [coll.InsertOne(ctx, doc)]. With [omitempty] a zero [ID] is left out
    of the encoded document and the driver puts in the identifier it
    generates, [generated] (the value of [primitive.NewObjectID()] at this
    call, an input of the model); any other [ID] is sent as the [_id].
    The store refuses an [_id] it already holds. The result is the
    collection and [InsertedID] or the error. *)
Definition InsertOne (generated : ObjectID) (coll : list BookStore)
    (doc : BookStore) : list BookStore * (ObjectID + error) :=
  let id := if IsZero (ID doc) then generated else ID doc in
  if existsb (hasID id) coll then (coll, inr DuplicateKey)
  else ((coll ++ [withID id doc])%list, inl id).

(** The effect of [$set] with the map [set] on one document. The service
    sets the five descriptive fields, each to a value of its type. *)
Definition applySet (set : gmap string Value) (d : BookStore) : BookStore :=
  {| ID := ID d;
     BookName := match set !! "bookname" with
                 | Some (VString s) => s | _ => BookName d end;
     BookAuthor := match set !! "bookauthor" with
                   | Some (VString s) => s | _ => BookAuthor d end;
     BookISBN := match set !! "bookisbn" with
                 | Some (VString s) => s | _ => BookISBN d end;
     BookPages := match set !! "bookpages" with
                  | Some (VInt n) => n | _ => BookPages d end;
     BookYear := match set !! "bookyear" with
                 | Some (VInt n) => n | _ => BookYear d end |}.

(** [coll.UpdateOne(ctx, filter, {"$set": set})]: the first match is
    updated; the count of matched documents is returned. *)
Fixpoint UpdateOne (coll : list BookStore) (filter set : gmap string Value)
  : list BookStore * Z :=
  match coll with
  | [] => ([], 0%Z)
  | d :: rest =>
      if matches filter d then (applySet set d :: rest, 1%Z)
      else let '(rest', n) := UpdateOne rest filter set in (d :: rest', n)
  end.

(** [coll.DeleteOne(ctx, filter)]: the first match is removed; the count
    of deleted documents is returned. *)
Fixpoint DeleteOne (coll : list BookStore) (filter : gmap string Value)
  : list BookStore * Z :=
  match coll with
  | [] => ([], 0%Z)
  | d :: rest =>
      if matches filter d then (rest, 1%Z)
      else let '(rest', n) := DeleteOne rest filter in (d :: rest', n)
  end.

End Mongo.

(** ** The data-access functions of [main.go] *)

(** [getAllBooks]: every record as a map with the wire form's keys. *)
Definition getAllBooks (coll : list BookStore) : list (gmap string Value) :=
  let results := Mongo.Find coll ∅ in
  List.map (λ res : BookStore,
      list_to_map
        [("id", VString (Hex (ID res)));
         ("name", VString (BookName res));
         ("author", VString (BookAuthor res));
         ("isbn", VString (BookISBN res));
         ("pages", VInt (BookPages res));
         ("year", VInt (BookYear res))])
    results.

(** [checkIfDuplicateExists]: true if there is a duplicate in the
    collection, that is if [FindOne] reports no error. *)
Definition checkIfDuplicateExists (coll : list BookStore) (book : BookStore)
  : bool :=
  let filter : gmap string Value :=
    list_to_map
      [("bookname", VString (BookName book));
       ("bookauthor", VString (BookAuthor book));
       ("bookisbn", VString (BookISBN book));
       ("bookpages", VInt (BookPages book));
       ("bookyear", VInt (BookYear book))] in
  let res := Mongo.FindOne coll filter in
  match res with
  | inl _ => true
  | inr _ => false
  end.

(** [saveBook]: [nil] (the empty list) when the insert fails, else the
    one-element list [{"ID": res.InsertedID}]. *)
Definition saveBook (generated : ObjectID) (coll : list BookStore)
    (newBook : BookStore) : list BookStore * list (gmap string Value) :=
  match Mongo.InsertOne generated coll newBook with
  | (coll', inr _) => (coll', [])
  | (coll', inl InsertedID) => (coll', [ {[ "ID" := VObjectID InsertedID ]} ])
  end.

(** [updateBook]: result and error of [UpdateOne] are dropped. *)
Definition updateBook (coll : list BookStore) (updatedBook : BookStore)
  : list BookStore :=
  let filter : gmap string Value := {[ "_id" := VObjectID (ID updatedBook) ]} in
  let update : gmap string Value :=
    list_to_map
      [("bookname", VString (BookName updatedBook));
       ("bookauthor", VString (BookAuthor updatedBook));
       ("bookisbn", VString (BookISBN updatedBook));
       ("bookpages", VInt (BookPages updatedBook));
       ("bookyear", VInt (BookYear updatedBook))] in
  fst (Mongo.UpdateOne coll filter update).

(** [deleteBook]: result and error of [DeleteOne] are dropped. *)
Definition deleteBook (coll : list BookStore) (id : ObjectID)
  : list BookStore :=
  let filter : gmap string Value := {[ "_id" := VObjectID id ]} in
  fst (Mongo.DeleteOne coll filter).

(** [convertToBookstore]: [var bookStore BookStore] starts at the zero
    value; the identifier is decoded when the wire one is not empty, the
    error of the decoding dropped. *)
Definition convertToBookstore (book : Book) : BookStore :=
  let bookStore_ID :=
    if negb (String.eqb (Book_ID book) "")
    then fst (ObjectIDFromHex (Book_ID book))
    else NilObjectID in
  {| ID := bookStore_ID;
     BookAuthor := Author book;
     BookISBN := ISBN book;
     BookName := Name book;
     BookPages := Pages book;
     BookYear := Year book |}.

(** ** The handlers of [/api/books]

    A handler takes the collection and the request, and returns the
    collection and what it hands to [c.JSON]: the status code and the
    value to encode. The wire record is the [book] that [c.Bind(&book)]
    filled from the request body. *)
Inductive Body : Type :=
  | JSONString (s : string)
  | JSONMaps (l : list (gmap string Value)).  (* a nil slice encodes as null *)

Record Response : Type := mkResponse { status : Z; body : Body }.

(** [e.GET("/api/books", ...)] *)
Definition GET_api_books (coll : list BookStore) : list BookStore * Response :=
  let books := getAllBooks coll in
  (coll, mkResponse 200 (JSONMaps books)).

(** [e.POST("/api/books", ...)] *)
Definition POST_api_books (generated : ObjectID) (coll : list BookStore)
    (book : Book) : list BookStore * Response :=
  let toPost := convertToBookstore book in
  if checkIfDuplicateExists coll toPost
  then (coll, mkResponse 304 (JSONString "Duplicate not allowed"))
  else
    let '(coll', res) := saveBook generated coll toPost in
    (coll', mkResponse 200 (JSONMaps res)).

(** [e.PUT("/api/books", ...)] *)
Definition PUT_api_books (coll : list BookStore) (book : Book)
  : list BookStore * Response :=
  let toUpdate := convertToBookstore book in
  if checkIfDuplicateExists coll toUpdate
  then (coll, mkResponse 201 (JSONString "Duplicate not allowed"))
  else
    let coll' := updateBook coll toUpdate in
    (coll', mkResponse 200 (JSONString "Updated the book")).

(** [e.DELETE("/api/books/:id", ...)]; [id] is [c.Param("id")]. *)
Definition DELETE_api_books_id (coll : list BookStore) (id : string)
  : list BookStore * Response :=
  let objectId := fst (ObjectIDFromHex id) in
  let coll' := deleteBook coll objectId in
  (coll', mkResponse 200 (JSONString "Succesfully deleted entry")).

(** ** Start-up: the client, [prepareDatabase], [prepareData], [main] *)

(** How a piece of start-up code ends: control goes on with a value, or the
    process is over. *)
Inductive Outcome (A : Type) : Type :=
  | Continue (a : A)
  | Panic (v : error + string)    (* panic(err), or a run-time error *)
  | LogFatal (v : error + string) (* log.Fatal(v): message, then os.Exit(1) *)
  | OsExit (code : Z).            (* os.Exit(code) *)

Arguments Continue {A} a.
Arguments Panic {A} v.
Arguments LogFatal {A} v.
Arguments OsExit {A} code.

#[global] Instance Outcome_bind : MBind Outcome :=
  λ (A B : Type) (k : A → Outcome B) (o : Outcome A),
    match o with
    | Continue a => k a
    | Panic v => Panic v
    | LogFatal v => LogFatal v
    | OsExit code => OsExit code
    end.

(** What a [*mongo.Client] stands for: the deployment behind the
    connection string. [reachable] tells whether it answers (connecting is
    lazy: [mongo.Connect] succeeds either way); [databases] maps a database
    name to its collections; [issued] lists the [create] commands the
    program has sent, as (database, collection). *)
Record Client : Type := mkClient {
  reachable : bool;
  databases : gmap string (gmap string (list BookStore));
  issued : list (string * string)
}.

(** [db.Collection(name)]: a handle, naming the database and collection. *)
Record Collection : Type := mkCollection {
  dbOf : string;
  nameOf : string
}.

Module Driver.

Definition database (client : Client) (dbName : string)
  : gmap string (list BookStore) :=
  default ∅ (databases client !! dbName).

(** The documents a handle points at; a collection that does not exist
    reads as empty. *)
Definition documents (client : Client) (coll : Collection)
  : list BookStore :=
  default [] (database client (dbOf coll) !! nameOf coll).

Definition store (client : Client) (coll : Collection)
    (docs : list BookStore) : Client :=
  mkClient (reachable client)
    (<[dbOf coll := <[nameOf coll := docs]> (database client (dbOf coll))]>
       (databases client))
    (issued client).

(** [db.ListCollectionNames(ctx, bson.D{{}})] *)
Definition ListCollectionNames (client : Client) (dbName : string)
  : list string + error :=
  if reachable client
  then inl (map fst (map_to_list (database client dbName)))
  else inr ServerSelectionError.

(** [db.RunCommand(ctx, bson.D{{"create", name}}).Decode(&result)] *)
Definition RunCommand_create (client : Client) (dbName collecName : string)
  : Client * option error :=
  let sent := (issued client ++ [(dbName, collecName)])%list in
  if negb (reachable client)
  then (mkClient (reachable client) (databases client) sent,
        Some ServerSelectionError)
  else
    match database client dbName !! collecName with
    | Some _ =>
        (mkClient (reachable client) (databases client) sent,
         Some NamespaceExists)
    | None =>
        (mkClient (reachable client)
           (<[dbName := <[collecName := []]> (database client dbName)]>
              (databases client))
           sent,
         None)
    end.

(** [coll.Find]: the cursor over the matches (here, its documents), or
    the error, in which case the cursor is [nil]. *)
Definition Find (client : Client) (coll : Collection)
    (filter : gmap string Value) : list BookStore + error :=
  if reachable client
  then inl (Mongo.Find (documents client coll) filter)
  else inr ServerSelectionError.

(** [coll.InsertOne] *)
Definition InsertOne (generated : ObjectID) (client : Client)
    (coll : Collection) (doc : BookStore) : Client * (ObjectID + error) :=
  if reachable client
  then
    let '(docs, res) := Mongo.InsertOne generated (documents client coll) doc in
    (store client coll docs, res)
  else (client, inr ServerSelectionError).

End Driver.

(** [slices.Contains] *)
Definition Contains (s : list string) (v : string) : bool :=
  existsb (String.eqb v) s.

(** [prepareDatabase]: the pair [(coll, err)] of the Go function, [None]
    for [nil]; [log.Fatal] ends the process. *)
Definition prepareDatabase (client : Client) (dbName collecName : string)
  : Outcome (Client * (option Collection * option error)) :=
  match Driver.ListCollectionNames client dbName with
  | inr err => Continue (client, (None, Some err))
  | inl names =>
      client' ←
        (if negb (Contains names collecName)
         then
           match Driver.RunCommand_create client dbName collecName with
           | (_, Some err) => LogFatal (inl err)
           | (created, None) => Continue created
           end
         else Continue client);
      let coll := mkCollection dbName collecName in
      Continue (client', (Some coll, None))
  end.

(** The three records of [startData] in [prepareData]. *)
Definition startData : list BookStore :=
  [ {| ID := NilObjectID;
       BookName := "The Vortex";
       BookAuthor := "JosÃ© Eustasio Rivera";
       BookISBN := "958-30-0804-4";
       BookPages := 292;
       BookYear := 1924 |};
    {| ID := NilObjectID;
       BookName := "Frankenstein";
       BookAuthor := "Mary Shelley";
       BookISBN := "978-3-649-64609-9";
       BookPages := 280;
       BookYear := 1818 |};
    {| ID := NilObjectID;
       BookName := "The Black Cat";
       BookAuthor := "Edgar Allan Poe";
       BookISBN := "978-3-99168-238-7";
       BookPages := 280;
       BookYear := 1843 |} ].

(** A [BookStore] used as a filter: its encoding, without [_id] when the
    [ID] is zero ([omitempty]). *)
Definition asFilter (book : BookStore) : gmap string Value :=
  if IsZero (ID book) then delete "_id" (Mongo.document book)
  else Mongo.document book.

(** The message of Go's run-time error for a method that reads a field
    through a [nil] receiver. *)
Definition nilDereference : string :=
  "invalid memory address or nil pointer dereference".

(** The body of the loop of [prepareData] for one record. A method of a
    [nil] collection or of a [nil] cursor dereferences it: a run-time
    panic. [generated] is the identifier the driver makes for the insert. *)
Definition prepareData_step (generated : ObjectID) (client : Client)
    (coll : option Collection) (book : BookStore) : Outcome Client :=
  match coll with
  | None => Panic (inr nilDereference)
  | Some coll =>
      match Driver.Find client coll (asFilter book) with
      | inr _ => Panic (inr nilDereference)
      | inl results =>
          if (1 <? length results)%nat then LogFatal (inr "more records were found")
          else if (length results =? 0)%nat then
            match Driver.InsertOne generated client coll book with
            | (_, inr err) => Panic (inl err)
            | (client', inl _) => Continue client'
            end
          else Continue client
      end
  end.

(** [prepareData]: the loop over [startData]; [generated i] is the
    identifier the driver makes in round [i]. *)
Fixpoint prepareData_loop (generated : nat → ObjectID) (i : nat)
    (client : Client) (coll : option Collection) (books : list BookStore)
  : Outcome Client :=
  match books with
  | [] => Continue client
  | book :: rest =>
      client' ← prepareData_step (generated i) client coll book;
      prepareData_loop generated (S i) client' coll rest
  end.

Definition prepareData (generated : nat → ObjectID) (client : Client)
    (coll : option Collection) : Outcome Client :=
  prepareData_loop generated 0 client coll startData.

(** [main], up to the point where the server is set up and listens:
    [uri] is the value of [DATABASE_URI], [client] the deployment it names.
    The error of [prepareDatabase] is assigned and not looked at. Ends in
    [Continue] with the collection the handlers close over when the
    service starts. *)
Definition main (uri : string) (generated : nat → ObjectID) (client : Client)
  : Outcome (Client * option Collection) :=
  if (String.length uri =? 0)%nat then OsExit 1
  else
    '(client1, (coll, _)) ← prepareDatabase client "exercise-1" "information";
    client2 ← prepareData generated client1 coll;
    Continue (client2, coll).

(** ** The method router: the [server] block of the nginx configuration *)
Module Router.

(** A [location] with a prefix: its own [proxy_pass], if any, and its
    [if ($request_method = 'M') { proxy_pass http://U; }] blocks in
    order. Upstreams are named as in the configuration. *)
Record Location : Type := mkLocation {
  prefix : string;
  proxy_pass : option string;
  if_request_method : list (string * string)
}.

Definition locations : list Location :=
  [ mkLocation "/" (Some "backend") [];
    mkLocation "/api" None
      [("GET", "get"); ("POST", "post"); ("PUT", "put"); ("DELETE", "delete")] ].

(** Among prefix locations nginx takes the one with the longest prefix
    that the request path starts with; [uri] is the path of the request as
    nginx matches it, which begins with [/]. *)
Definition select (uri : string) : option Location :=
  fold_left
    (λ (best : option Location) (l : Location),
       if String.prefix (prefix l) uri then
         match best with
         | Some b =>
             if (String.length (prefix b) <? String.length (prefix l))%nat
             then Some l else best
         | None => Some l
         end
       else best)
    locations None.

(** Inside the location the [if] blocks are tried in order, and the
    last one whose condition holds gives the [proxy_pass]; with none, the
    location's own applies. [None]: not forwarded to any pool. *)
Definition forward (l : Location) (method : string) : option string :=
  fold_left
    (λ (pass : option string) (rule : string * string),
       if String.eqb method (fst rule) then Some (snd rule) else pass)
    (if_request_method l) (proxy_pass l).

Definition route (method uri : string) : option string :=
  match select uri with
  | Some l => forward l method
  | None => None
  end.

End Router.

(** ** Vocabulary of the statements *)

(** The five descriptive fields of [d] are those of [book]. *)
Definition sameFields (d book : BookStore) : Prop :=
  BookName d = BookName book ∧ BookAuthor d = BookAuthor book ∧
  BookISBN d = BookISBN book ∧ BookPages d = BookPages book ∧
  BookYear d = BookYear book.

(** The identifiers held by a collection. *)
Definition ids (coll : list BookStore) : list ObjectID := map ID coll.

(** No stored record carries the zero identifier. *)
Definition noZeroID (coll : list BookStore) : Prop :=
  NilObjectID ∉ ids coll.

(** Lower-casing of the hex letters [A]..[F]; every other character is
    kept. *)
Definition lowerHexChar (c : ascii) : ascii :=
  let n := N_of_ascii c in
  if (65 <=? n)%N && (n <=? 70)%N then ascii_of_N (n + 32) else c.

(** A digit or one of the letters [a]..[f]. *)
Definition isLowerHexChar (c : ascii) : bool :=
  let n := N_of_ascii c in
  ((48 <=? n)%N && (n <=? 57)%N) || ((97 <=? n)%N && (n <=? 102)%N).

(** [s] with its hex letters in lower case. *)
Definition lowerHex (s : string) : string :=
  string_of_list_ascii (map lowerHexChar (list_ascii_of_string s)).

(** [s] is made of digits and the letters [a]..[f] only. *)
Definition isLowerHex (s : string) : bool :=
  forallb isLowerHexChar (list_ascii_of_string s).

(** HTTP status classes: success is 2xx, the error statuses are 4xx and
    5xx. *)
Definition isSuccess (code : Z) : Prop := (200 ≤ code < 300)%Z.
Definition isError (code : Z) : Prop := (400 ≤ code < 600)%Z.

(** The identifier [InsertOne] writes for [doc]: its own when it has one,
    the generated one otherwise. *)
Definition insertedID (generated : ObjectID) (doc : BookStore) : ObjectID :=
  if IsZero (ID doc) then generated else ID doc.

(** The values of a hex digit. *)
Definition nibbles : list N :=
  [0; 1; 2; 3; 4; 5; 6; 7; 8; 9; 10; 11; 12; 13; 14; 15]%N.

(** The wire identifier decodes: [ObjectIDFromHex] reports no error. *)
Definition decodes (s : string) : Prop := snd (ObjectIDFromHex s) = None.

(** A request to [/api/books], as the service sees it; a POST comes with
    the identifier the driver generates while it is served. *)
Inductive Request : Type :=
  | GET
  | POST (generated : ObjectID) (book : Book)
  | PUT (book : Book)
  | DELETE (id : string).

Definition serve (coll : list BookStore) (req : Request)
  : list BookStore * Response :=
  match req with
  | GET => GET_api_books coll
  | POST generated book => POST_api_books generated coll book
  | PUT book => PUT_api_books coll book
  | DELETE id => DELETE_api_books_id coll id
  end.

(** Requests served one after the other: the collection at the end and
    the responses, in order. *)
Fixpoint serveAll (coll : list BookStore) (reqs : list Request)
  : list BookStore * list Response :=
  match reqs with
  | [] => (coll, [])
  | req :: rest =>
      let '(coll', resp) := serve coll req in
      let '(coll'', resps) := serveAll coll' rest in
      (coll'', resp :: resps)
  end.

(** The driver does not generate the zero identifier. *)
Definition generatesNonZero (req : Request) : Prop :=
  match req with
  | POST generated _ => generated ≠ NilObjectID
  | _ => True
  end.

(** ** The page projections of [main.go] *)

(** [findAllBooks]: the records for the book table; the year is not in
    it. *)
Definition findAllBooks (coll : list BookStore) : list (gmap string Value) :=
  let results := Mongo.Find coll ∅ in
  List.map (λ res : BookStore,
      list_to_map
        [("ID", VString (Hex (ID res)));
         ("BookName", VString (BookName res));
         ("BookAuthor", VString (BookAuthor res));
         ("BookISBN", VString (BookISBN res));
         ("BookPages", VInt (BookPages res))])
    results.

(** [findAllAuthors] *)
Definition findAllAuthors (coll : list BookStore) : list (gmap string Value) :=
  let results := Mongo.Find coll ∅ in
  List.map (λ res : BookStore,
      list_to_map
        [("ID", VString (Hex (ID res)));
         ("BookAuthor", VString (BookAuthor res))])
    results.

(** [findAllYears] *)
Definition findAllYears (coll : list BookStore) : list (gmap string Value) :=
  let results := Mongo.Find coll ∅ in
  List.map (λ res : BookStore,
      list_to_map
        [("ID", VString (Hex (ID res)));
         ("BookYear", VInt (BookYear res))])
    results.

(** The [upstream] blocks of the nginx configuration: name and server. *)
Definition upstreams : list (string * string) :=
  [("backend", "backend:3030"); ("get", "get:3030"); ("post", "post:3030");
   ("put", "put:3030"); ("delete", "delete:3030")].

(** The five descriptive values of a record. *)
Definition fields (d : BookStore) : string * string * string * Z * Z :=
  (BookName d, BookAuthor d, BookISBN d, BookPages d, BookYear d).

(** No two stored records have the same five descriptive values. *)
Definition uniqueFields (coll : list BookStore) : Prop :=
  NoDup (map fields coll).

(** No two stored records have the same identifier. *)
Definition uniqueIDs (coll : list BookStore) : Prop := NoDup (ids coll).

(** How many documents of the collection [prepareData] finds for a
    record of [startData]. *)
Definition found (client : Client) (coll : Collection) (book : BookStore)
  : nat :=
  length (Mongo.Find (Driver.documents client coll) (asFilter book)).

(** * Properties *)

(** ** encoding/hex and ObjectID *)
Section HexFacts.
Import Hex.

Ltac each_byte c := destruct c as [[] [] [] [] [] [] [] []].

(** The two digits written for a byte read back as that byte. *)
Lemma Decode_Encode_byte (v : ascii) :
  fromHexChar (hexDigit (N.shiftr (N_of_ascii v) 4))
    = Some (N.shiftr (N_of_ascii v) 4) ∧
  fromHexChar (hexDigit (N.land (N_of_ascii v) 15))
    = Some (N.land (N_of_ascii v) 15) ∧
  ascii_of_N (N.lor (N.shiftl (N.shiftr (N_of_ascii v) 4) 4)
                    (N.land (N_of_ascii v) 15)) = v.
Proof. each_byte v; repeat split; reflexivity. Qed.

Lemma Decode_Encode (src : list ascii) : Decode (Encode src) = inl src.
Proof.
  induction src as [|v rest IH]; [reflexivity|].
  destruct (Decode_Encode_byte v) as (Hhi & Hlo & Hv).
  cbn [Encode Decode]. rewrite Hhi, Hlo, IH, Hv. reflexivity.
Qed.

(** A digit's value is a nibble, and its digit in [hextable] is the
    character itself, in lower case. *)
Lemma fromHexChar_Some (c : ascii) (n : N) :
  fromHexChar c = Some n → In n nibbles ∧ hexDigit n = lowerHexChar c.
Proof.
  each_byte c; vm_compute; intros H; try discriminate H;
    injection H as <-; split; try reflexivity; tauto.
Qed.

Lemma nibbles_pack (a b : N) :
  In a nibbles → In b nibbles →
  N.shiftr (N_of_ascii (ascii_of_N (N.lor (N.shiftl a 4) b))) 4 = a ∧
  N.land (N_of_ascii (ascii_of_N (N.lor (N.shiftl a 4) b))) 15 = b.
Proof.
  unfold nibbles. cbn [In]. intros Ha Hb.
  repeat (destruct Ha as [<-|Ha]; [|]); try contradiction;
    repeat (destruct Hb as [<-|Hb]; [|]); try contradiction;
    split; reflexivity.
Qed.

Lemma Encode_Decode (src bytes : list ascii) :
  Decode src = inl bytes → Encode bytes = map lowerHexChar src.
Proof.
  remember (length src) as n eqn:Hn. revert src bytes Hn.
  induction n as [n IH] using lt_wf_ind.
  intros src bytes ->. destruct src as [|p [|q rest]]; cbn [Decode].
  - intros [= <-]. reflexivity.
  - destruct (fromHexChar p); discriminate.
  - destruct (fromHexChar p) as [a|] eqn:Hp; [|discriminate].
    destruct (fromHexChar q) as [b|] eqn:Hq; [|discriminate].
    destruct (Decode rest) as [tl|] eqn:Hrest; [|discriminate].
    intros [= <-].
    apply fromHexChar_Some in Hp as [Ha Hp], Hq as [Hb Hq].
    destruct (nibbles_pack a b Ha Hb) as [Hhi Hlo].
    cbn [Encode map]. rewrite Hhi, Hlo, Hp, Hq. do 2 f_equal.
    apply (IH (length rest)); [cbn; lia | reflexivity | exact Hrest].
Qed.

Lemma lowerHexChar_id (c : ascii) :
  isLowerHexChar c = true → lowerHexChar c = c.
Proof. each_byte c; vm_compute; intros H; try discriminate H; reflexivity. Qed.

Lemma lowerHex_id (s : string) : isLowerHex s = true → lowerHex s = s.
Proof.
  unfold isLowerHex, lowerHex. intros H.
  rewrite <- (string_of_list_ascii_of_string s) at 2. f_equal.
  induction (list_ascii_of_string s) as [|c l IH]; [reflexivity|].
  cbn in H. apply andb_true_iff in H as [Hc Hl].
  cbn. rewrite lowerHexChar_id by exact Hc. f_equal. exact (IH Hl).
Qed.

End HexFacts.

(** Decoding the hex form of an identifier gives the identifier back. *)
Lemma ObjectIDFromHex_Hex (id : ObjectID) : ObjectIDFromHex (Hex id) = (id, None).
Proof.
  unfold ObjectIDFromHex, Hex.
  rewrite list_ascii_of_string_of_list_ascii, Decode_Encode.
  destruct id; reflexivity.
Qed.

(** What [ObjectIDFromHex] returns with an error is [NilObjectID]. *)
Lemma ObjectIDFromHex_error (s : string) :
  ¬ decodes s → fst (ObjectIDFromHex s) = NilObjectID.
Proof.
  unfold decodes, ObjectIDFromHex. destruct (negb _); [reflexivity|].
  destruct (Hex.Decode _) as [l|e]; [|reflexivity].
  do 13 (destruct l as [|? l]; try reflexivity).
  intros H. exfalso. apply H. reflexivity.
Qed.

(** The hex form of a decoded identifier is the string decoded, its hex
    letters in lower case. *)
Lemma Hex_ObjectIDFromHex (s : string) :
  decodes s → Hex (fst (ObjectIDFromHex s)) = lowerHex s.
Proof.
  unfold decodes, ObjectIDFromHex. destruct (negb _); [discriminate|].
  destruct (Hex.Decode _) as [l|e] eqn:Hd; [|discriminate].
  apply Encode_Decode in Hd.
  do 13 (destruct l as [|? l]; try discriminate).
  intros _. unfold Hex, lowerHex. f_equal. exact Hd.
Qed.

(** ** Filters *)
Section Filters.

Lemma matches_empty (d : BookStore) : Mongo.matches ∅ d = true.
Proof. apply bool_decide_eq_true, map_Forall_empty. Qed.

(** The filter on [_id] selects by identifier. *)
Lemma matches_id (id : ObjectID) (d : BookStore) :
  Mongo.matches {[ "_id" := VObjectID id ]} d = Mongo.hasID id d.
Proof.
  unfold Mongo.matches, Mongo.hasID. apply bool_decide_ext.
  rewrite map_Forall_singleton.
  change (Mongo.document d !! "_id") with (Some (VObjectID (ID d))).
  split; [intros [= ->]; reflexivity | intros ->; reflexivity].
Qed.

(** The filter on the five descriptive fields selects the records that
    agree on all five. *)
Lemma matches_fields (n a i : string) (p y : Z) (d : BookStore) :
  Mongo.matches
    (list_to_map
       [("bookname", VString n); ("bookauthor", VString a);
        ("bookisbn", VString i); ("bookpages", VInt p);
        ("bookyear", VInt y)]) d = true
  ↔ BookName d = n ∧ BookAuthor d = a ∧ BookISBN d = i ∧
    BookPages d = p ∧ BookYear d = y.
Proof.
  unfold Mongo.matches. rewrite bool_decide_eq_true.
  cbn [list_to_map foldr fst snd uncurry].
  rewrite !map_Forall_insert by reflexivity.
  change (Mongo.document d !! "bookname") with (Some (VString (BookName d))).
  change (Mongo.document d !! "bookauthor") with (Some (VString (BookAuthor d))).
  change (Mongo.document d !! "bookisbn") with (Some (VString (BookISBN d))).
  change (Mongo.document d !! "bookpages") with (Some (VInt (BookPages d))).
  change (Mongo.document d !! "bookyear") with (Some (VInt (BookYear d))).
  split.
  - intros ([= ->] & [= ->] & [= ->] & [= ->] & [= ->] & _). repeat split.
  - intros (-> & -> & -> & -> & ->).
    repeat split; apply map_Forall_empty.
Qed.

Lemma matches_book (book d : BookStore) :
  Mongo.matches
    (list_to_map
       [("bookname", VString (BookName book));
        ("bookauthor", VString (BookAuthor book));
        ("bookisbn", VString (BookISBN book));
        ("bookpages", VInt (BookPages book));
        ("bookyear", VInt (BookYear book))]) d = true
  ↔ sameFields d book.
Proof. apply matches_fields. Qed.

End Filters.

(** ** The Duplicate Guard *)

Lemma checkIfDuplicateExists_true (coll : list BookStore) (book : BookStore) :
  checkIfDuplicateExists coll book = true ↔ ∃ d, d ∈ coll ∧ sameFields d book.
Proof.
  unfold checkIfDuplicateExists, Mongo.FindOne. cbv zeta.
  destruct (find _ coll) as [d|] eqn:Hfind.
  - apply find_some in Hfind as [Hin Hm].
    split; [intros _|reflexivity].
    exists d. split; [apply list_elem_of_In, Hin | apply matches_book, Hm].
  - split; [discriminate|]. intros (d & Hin & Hsame). exfalso.
    apply list_elem_of_In in Hin.
    pose proof (find_none _ _ Hfind d Hin) as Hno.
    apply matches_book in Hsame. congruence.
Qed.

Lemma checkIfDuplicateExists_false (coll : list BookStore) (book : BookStore) :
  checkIfDuplicateExists coll book = false ↔ ¬ ∃ d, d ∈ coll ∧ sameFields d book.
Proof.
  rewrite <- checkIfDuplicateExists_true.
  destruct (checkIfDuplicateExists coll book); split; congruence.
Qed.

(** C4. The Duplicate Guard answers true exactly when some stored record
    agrees with the candidate on all five descriptive fields (name, author,
    ISBN, pages, year); and its answer is that of one [FindOne] whose
    filter has these five fields as keys and selects by equality on them. *)
Theorem duplicate_guard_exact (coll : list BookStore) (book : BookStore) :
  (checkIfDuplicateExists coll book = true
     ↔ ∃ d, d ∈ coll ∧ sameFields d book) ∧
  ∃ filter : gmap string Value,
    dom filter
      = {[ "bookname"; "bookauthor"; "bookisbn"; "bookpages"; "bookyear" ]} ∧
    (∀ d, Mongo.matches filter d = true ↔ sameFields d book) ∧
    checkIfDuplicateExists coll book
      = match Mongo.FindOne coll filter with inl _ => true | inr _ => false end.
Proof.
  split; [apply checkIfDuplicateExists_true|].
  eexists. split; [|split; [intros d; apply matches_book | reflexivity]].
  cbn [list_to_map foldr fst snd uncurry].
  rewrite !dom_insert_L, dom_empty_L. set_solver.
Qed.

(** ** Conversion between the wire form and the persisted form *)

Lemma Find_all (coll : list BookStore) : Mongo.Find coll ∅ = coll.
Proof.
  unfold Mongo.Find. induction coll as [|d coll IH]; [reflexivity|].
  cbn [List.filter]. rewrite matches_empty, IH. reflexivity.
Qed.

Lemma convertToBookstore_ID (book : Book) :
  ID (convertToBookstore book)
  = if String.eqb (Book_ID book) "" then NilObjectID
    else fst (ObjectIDFromHex (Book_ID book)).
Proof. unfold convertToBookstore. destruct (String.eqb _ _); reflexivity. Qed.

(** An empty wire identifier, or one whose decoding gives the zero
    identifier (as every failed decoding does), leaves the record without
    identifier. *)
Lemma convertToBookstore_zero (book : Book) :
  Book_ID book = "" ∨ fst (ObjectIDFromHex (Book_ID book)) = NilObjectID →
  ID (convertToBookstore book) = NilObjectID.
Proof.
  rewrite convertToBookstore_ID. intros [->| ->]; [reflexivity|].
  destruct (String.eqb _ _); reflexivity.
Qed.

(** C7 (as amended). Wire form to persisted form and back, through
    [convertToBookstore] and the map [getAllBooks] builds: the five
    descriptive fields come back exactly. A wire identifier that is present
    and decodes comes back with its hex letters in lower case, hence
    unchanged when it has none in upper case, and the string that comes
    back decodes to the identifier used internally. *)
Theorem wire_roundtrip (book : Book) :
  ∃ m : gmap string Value,
    getAllBooks [convertToBookstore book] = [m] ∧
    m !! "name" = Some (VString (Name book)) ∧
    m !! "author" = Some (VString (Author book)) ∧
    m !! "isbn" = Some (VString (ISBN book)) ∧
    m !! "pages" = Some (VInt (Pages book)) ∧
    m !! "year" = Some (VInt (Year book)) ∧
    (Book_ID book ≠ "" → decodes (Book_ID book) →
       m !! "id" = Some (VString (lowerHex (Book_ID book))) ∧
       (isLowerHex (Book_ID book) = true →
          m !! "id" = Some (VString (Book_ID book))) ∧
       ObjectIDFromHex (lowerHex (Book_ID book))
         = (ID (convertToBookstore book), None)).
Proof.
  unfold getAllBooks. cbv zeta. rewrite Find_all. cbn [map].
  eexists. split; [reflexivity|].
  do 5 (split; [reflexivity|]).
  intros Hne Hdec.
  assert (Hid : ID (convertToBookstore book) = fst (ObjectIDFromHex (Book_ID book))).
  { rewrite convertToBookstore_ID.
    destruct (String.eqb_spec (Book_ID book) ""); [contradiction|reflexivity]. }
  assert (Hhex : Hex (ID (convertToBookstore book)) = lowerHex (Book_ID book)).
  { rewrite Hid. apply Hex_ObjectIDFromHex, Hdec. }
  assert (Hm : ∀ s, Hex (ID (convertToBookstore book)) = s →
     (list_to_map
        [("id", VString (Hex (ID (convertToBookstore book))));
         ("name", VString (BookName (convertToBookstore book)));
         ("author", VString (BookAuthor (convertToBookstore book)));
         ("isbn", VString (BookISBN (convertToBookstore book)));
         ("pages", VInt (BookPages (convertToBookstore book)));
         ("year", VInt (BookYear (convertToBookstore book)))]
       : gmap string Value) !! "id" = Some (VString s)).
  { intros s <-. reflexivity. }
  split; [apply Hm, Hhex|]. split.
  - intros Hlow. apply Hm. rewrite Hhex. apply lowerHex_id, Hlow.
  - rewrite <- Hhex. apply ObjectIDFromHex_Hex.
Qed.

(** C7, counterexample. The wire identifier [ABCDEF0123456789ABCDEF01] is
    present and decodes, and comes back as [abcdef0123456789abcdef01]:
    decoding then re-encoding does not give the original string. *)
Lemma wire_roundtrip_upper_case_counterexample :
  let book := mkBook "ABCDEF0123456789ABCDEF01" "Dune" "Herbert"
                     "0-441-17271-7" 412 1965 in
  Book_ID book ≠ "" ∧ decodes (Book_ID book) ∧
  ∃ m : gmap string Value,
    getAllBooks [convertToBookstore book] = [m] ∧
    m !! "id" = Some (VString "abcdef0123456789abcdef01") ∧
    m !! "id" ≠ Some (VString (Book_ID book)).
Proof.
  cbv zeta. split; [discriminate|]. split; [reflexivity|].
  eexists.
  split; [unfold getAllBooks; cbv zeta; rewrite Find_all; reflexivity|].
  split; [vm_compute; reflexivity|]. vm_compute. discriminate.
Qed.

(** The theorem at the record of the end-to-end scenario, with the
    identifier [0123456789abcdef01234567]. *)
Lemma wire_roundtrip_witness :
  ∃ m : gmap string Value,
    m !! "name" = Some (VString "Dune") ∧
    m !! "pages" = Some (VInt 412) ∧
    m !! "id" = Some (VString "0123456789abcdef01234567").
Proof.
  destruct (wire_roundtrip
              (mkBook "0123456789abcdef01234567" "Dune" "Herbert"
                      "0-441-17271-7" 412 1965))
    as (m & _ & Hname & _ & _ & Hpages & _ & Hid).
  exists m. split; [exact Hname|]. split; [exact Hpages|].
  apply Hid; [discriminate | reflexivity | reflexivity].
Defined.

(** ** Store operations on a collection *)
Section StoreFacts.

Lemma existsb_hasID (id : ObjectID) (coll : list BookStore) :
  existsb (Mongo.hasID id) coll = true ↔ id ∈ ids coll.
Proof.
  unfold ids. rewrite existsb_exists, list_elem_of_fmap.
  split.
  - intros (d & Hin & Hd). apply bool_decide_eq_true in Hd.
    exists d. split; [congruence | apply list_elem_of_In, Hin].
  - intros (d & -> & Hin). exists d.
    split; [apply list_elem_of_In, Hin | apply bool_decide_eq_true; reflexivity].
Qed.

Lemma existsb_hasID_false (id : ObjectID) (coll : list BookStore) :
  existsb (Mongo.hasID id) coll = false ↔ id ∉ ids coll.
Proof.
  rewrite <- existsb_hasID. destruct (existsb _ coll); split; congruence.
Qed.

Lemma InsertOne_fresh (generated : ObjectID) (coll : list BookStore)
    (doc : BookStore) :
  insertedID generated doc ∉ ids coll →
  Mongo.InsertOne generated coll doc
  = ((coll ++ [Mongo.withID (insertedID generated doc) doc])%list,
     inl (insertedID generated doc)).
Proof.
  intros H. apply existsb_hasID_false in H.
  unfold Mongo.InsertOne. cbv zeta. fold (insertedID generated doc).
  rewrite H. reflexivity.
Qed.

Lemma InsertOne_taken (generated : ObjectID) (coll : list BookStore)
    (doc : BookStore) :
  insertedID generated doc ∈ ids coll →
  Mongo.InsertOne generated coll doc = (coll, inr DuplicateKey).
Proof.
  intros H. apply existsb_hasID in H.
  unfold Mongo.InsertOne. cbv zeta. fold (insertedID generated doc).
  rewrite H. reflexivity.
Qed.

(** A failed insert leaves the collection as it was. *)
Lemma InsertOne_error (generated : ObjectID) (coll : list BookStore)
    (doc : BookStore) (e : error) :
  snd (Mongo.InsertOne generated coll doc) = inr e →
  Mongo.InsertOne generated coll doc = (coll, inr e).
Proof.
  unfold Mongo.InsertOne. cbv zeta.
  destruct (existsb _ coll); cbn [snd]; [intros [= <-]; reflexivity | discriminate].
Qed.

Lemma UpdateOne_id_absent (coll : list BookStore) (id : ObjectID)
    (set : gmap string Value) :
  id ∉ ids coll →
  Mongo.UpdateOne coll {[ "_id" := VObjectID id ]} set = (coll, 0%Z).
Proof.
  induction coll as [|d coll IH]; [reflexivity|].
  cbn [ids map]. rewrite not_elem_of_cons. intros [Hd Hrest].
  cbn [Mongo.UpdateOne]. rewrite matches_id.
  unfold Mongo.hasID. rewrite bool_decide_eq_false_2 by congruence.
  rewrite IH by exact Hrest. reflexivity.
Qed.

Lemma DeleteOne_id_absent (coll : list BookStore) (id : ObjectID) :
  id ∉ ids coll →
  Mongo.DeleteOne coll {[ "_id" := VObjectID id ]} = (coll, 0%Z).
Proof.
  induction coll as [|d coll IH]; [reflexivity|].
  cbn [ids map]. rewrite not_elem_of_cons. intros [Hd Hrest].
  cbn [Mongo.DeleteOne]. rewrite matches_id.
  unfold Mongo.hasID. rewrite bool_decide_eq_false_2 by congruence.
  rewrite IH by exact Hrest. reflexivity.
Qed.

Lemma updateBook_absent (coll : list BookStore) (updatedBook : BookStore) :
  ID updatedBook ∉ ids coll → updateBook coll updatedBook = coll.
Proof.
  intros H. unfold updateBook. cbv zeta.
  rewrite UpdateOne_id_absent by exact H. reflexivity.
Qed.

Lemma deleteBook_absent (coll : list BookStore) (id : ObjectID) :
  id ∉ ids coll → deleteBook coll id = coll.
Proof.
  intros H. unfold deleteBook. cbv zeta.
  rewrite DeleteOne_id_absent by exact H. reflexivity.
Qed.

(** Deleting an identifier that is there removes one record. *)
Lemma deleteBook_present (coll : list BookStore) (id : ObjectID) :
  id ∈ ids coll → S (length (deleteBook coll id)) = length coll.
Proof.
  unfold deleteBook. cbv zeta.
  induction coll as [|d coll IH]; cbn [ids map].
  - intros H. apply elem_of_nil in H. contradiction.
  - cbn [Mongo.DeleteOne]. rewrite matches_id. unfold Mongo.hasID.
    destruct (bool_decide (ID d = id)) eqn:Hd; [reflexivity|].
    apply bool_decide_eq_false in Hd.
    rewrite elem_of_cons. intros [Heq|Hin]; [congruence|].
    specialize (IH Hin).
    destruct (Mongo.DeleteOne coll _) as [rest n]. cbn in *. lia.
Qed.

Lemma applySet_idem (set : gmap string Value) (d : BookStore) :
  Mongo.applySet set (Mongo.applySet set d) = Mongo.applySet set d.
Proof.
  unfold Mongo.applySet. cbn [ID BookName BookAuthor BookISBN BookPages BookYear].
  f_equal;
    match goal with
    | |- context [set !! ?k] => destruct (set !! k) as [[| |]|]; reflexivity
    end.
Qed.

(** [UpdateOne] on an [_id] filter, done again, changes nothing more. *)
Lemma UpdateOne_id_idem (coll : list BookStore) (id : ObjectID)
    (set : gmap string Value) :
  fst (Mongo.UpdateOne
         (fst (Mongo.UpdateOne coll {[ "_id" := VObjectID id ]} set))
         {[ "_id" := VObjectID id ]} set)
  = fst (Mongo.UpdateOne coll {[ "_id" := VObjectID id ]} set).
Proof.
  induction coll as [|d coll IH]; [reflexivity|].
  cbn [Mongo.UpdateOne]. rewrite matches_id.
  destruct (Mongo.hasID id d) eqn:Hd.
  - cbn [fst Mongo.UpdateOne]. rewrite matches_id.
    change (Mongo.hasID id (Mongo.applySet set d)) with (Mongo.hasID id d).
    rewrite Hd. cbn [fst]. rewrite applySet_idem. reflexivity.
  - destruct (Mongo.UpdateOne coll _ set) as [rest n] eqn:Hrest.
    cbn [fst Mongo.UpdateOne] in *. rewrite matches_id, Hd.
    destruct (Mongo.UpdateOne rest _ set) as [rest' n'].
    cbn [fst] in *. congruence.
Qed.

Lemma updateBook_idem (coll : list BookStore) (updatedBook : BookStore) :
  updateBook (updateBook coll updatedBook) updatedBook
  = updateBook coll updatedBook.
Proof. unfold updateBook. cbv zeta. apply UpdateOne_id_idem. Qed.

Lemma ids_UpdateOne (coll : list BookStore) (filter set : gmap string Value) :
  ids (fst (Mongo.UpdateOne coll filter set)) = ids coll.
Proof.
  induction coll as [|d coll IH]; [reflexivity|].
  cbn [Mongo.UpdateOne]. destruct (Mongo.matches filter d); [reflexivity|].
  destruct (Mongo.UpdateOne coll filter set) as [rest n].
  cbn [fst ids map] in *. unfold ids in IH. rewrite IH. reflexivity.
Qed.

Lemma ids_DeleteOne (coll : list BookStore) (filter : gmap string Value)
    (id : ObjectID) :
  id ∈ ids (fst (Mongo.DeleteOne coll filter)) → id ∈ ids coll.
Proof.
  induction coll as [|d coll IH]; [intros H; exact H|].
  cbn [Mongo.DeleteOne]. destruct (Mongo.matches filter d).
  - cbn [fst ids map]. intros H. apply elem_of_cons. right. exact H.
  - destruct (Mongo.DeleteOne coll filter) as [rest n].
    cbn [fst ids map] in *. rewrite !elem_of_cons.
    intros [->|H]; [left; reflexivity | right; apply IH, H].
Qed.

End StoreFacts.

(** ** POST /api/books *)
Section Create.

Variable generated : ObjectID.
Variable coll : list BookStore.
Variable book : Book.

Lemma POST_duplicate :
  checkIfDuplicateExists coll (convertToBookstore book) = true →
  POST_api_books generated coll book
  = (coll, mkResponse 304 (JSONString "Duplicate not allowed")).
Proof. intros H. unfold POST_api_books. cbv zeta. rewrite H. reflexivity. Qed.

Lemma POST_inserted :
  checkIfDuplicateExists coll (convertToBookstore book) = false →
  insertedID generated (convertToBookstore book) ∉ ids coll →
  POST_api_books generated coll book
  = ((coll ++ [Mongo.withID (insertedID generated (convertToBookstore book))
                            (convertToBookstore book)])%list,
     mkResponse 200
       (JSONMaps
          [ {[ "ID" := VObjectID
                         (insertedID generated (convertToBookstore book)) ]} ])).
Proof.
  intros Hguard Hfresh. unfold POST_api_books, saveBook. cbv zeta.
  rewrite Hguard, InsertOne_fresh by exact Hfresh. reflexivity.
Qed.

Lemma POST_insert_error (e : error) :
  checkIfDuplicateExists coll (convertToBookstore book) = false →
  snd (Mongo.InsertOne generated coll (convertToBookstore book)) = inr e →
  POST_api_books generated coll book = (coll, mkResponse 200 (JSONMaps [])).
Proof.
  intros Hguard Hfail. unfold POST_api_books, saveBook. cbv zeta.
  rewrite Hguard, (InsertOne_error _ _ _ _ Hfail). reflexivity.
Qed.

(** A POST answered with 200 and a non-empty list is one that has
    inserted. *)
Lemma POST_success_inv (coll' : list BookStore) (m : gmap string Value)
    (l : list (gmap string Value)) :
  POST_api_books generated coll book
    = (coll', mkResponse 200 (JSONMaps (m :: l))) →
  checkIfDuplicateExists coll (convertToBookstore book) = false ∧
  (insertedID generated (convertToBookstore book) ∉ ids coll) ∧
  coll' = (coll ++ [Mongo.withID (insertedID generated (convertToBookstore book))
                                 (convertToBookstore book)])%list ∧
  m = {[ "ID" := VObjectID (insertedID generated (convertToBookstore book)) ]} ∧
  l = [].
Proof.
  destruct (checkIfDuplicateExists coll (convertToBookstore book)) eqn:Hguard.
  { rewrite POST_duplicate by exact Hguard. discriminate. }
  destruct (decide (insertedID generated (convertToBookstore book) ∈ ids coll))
    as [Hin|Hout].
  - rewrite (POST_insert_error DuplicateKey Hguard); [discriminate|].
    rewrite InsertOne_taken by exact Hin. reflexivity.
  - rewrite POST_inserted by assumption. intros [= <- <- <-].
    repeat split. exact Hout.
Qed.

End Create.

(** C1 (as amended). For a POST whose wire identifier is empty, or decodes
    to the zero identifier (as every string that fails to decode does), the
    record handed to the insert carries no identifier; a create that
    succeeds then answers with the identifier generated for this insert,
    which no stored record had, and appends the record under it; and the
    create does succeed when the guard passes and the generated identifier
    is not in the store. A wire identifier that is not empty is decoded,
    and the result is the identifier of the record handed to the insert. *)
Theorem create_identifier (generated : ObjectID) (coll : list BookStore)
    (book : Book) :
  (Book_ID book = "" ∨ fst (ObjectIDFromHex (Book_ID book)) = NilObjectID →
     ID (convertToBookstore book) = NilObjectID ∧
     (∀ coll' m l,
        POST_api_books generated coll book
          = (coll', mkResponse 200 (JSONMaps (m :: l))) →
        m = {[ "ID" := VObjectID generated ]} ∧ l = [] ∧
        (generated ∉ ids coll) ∧
        coll' = (coll ++ [Mongo.withID generated (convertToBookstore book)])%list) ∧
     (checkIfDuplicateExists coll (convertToBookstore book) = false →
      generated ∉ ids coll →
      POST_api_books generated coll book
        = ((coll ++ [Mongo.withID generated (convertToBookstore book)])%list,
           mkResponse 200 (JSONMaps [ {[ "ID" := VObjectID generated ]} ])))) ∧
  (Book_ID book ≠ "" →
     ID (convertToBookstore book) = fst (ObjectIDFromHex (Book_ID book))).
Proof.
  split.
  - intros Hzero. apply convertToBookstore_zero in Hzero.
    assert (Hid : insertedID generated (convertToBookstore book) = generated).
    { unfold insertedID. rewrite Hzero. reflexivity. }
    split; [exact Hzero|]. split.
    + intros coll' m l Hpost.
      apply POST_success_inv in Hpost as (_ & Hout & -> & -> & ->).
      rewrite Hid in *. repeat split. exact Hout.
    + intros Hguard Hout.
      rewrite POST_inserted by (try rewrite Hid; assumption).
      rewrite Hid. reflexivity.
  - intros Hne. rewrite convertToBookstore_ID.
    destruct (String.eqb_spec (Book_ID book) ""); [contradiction|reflexivity].
Qed.

(** C1, counterexample. A POST with the wire identifier
    [0123456789abcdef01234567] on the empty collection: the record handed
    to the insert carries that identifier, and the create succeeds with it,
    not with the generated one. *)
Lemma create_identifier_counterexample :
  let book := mkBook "0123456789abcdef01234567" "Dune" "Herbert"
                     "0-441-17271-7" 412 1965 in
  let sent := fst (ObjectIDFromHex "0123456789abcdef01234567") in
  let generated := fst (ObjectIDFromHex "65f0c0de0000000000000001") in
  ID (convertToBookstore book) = sent ∧
  sent ≠ NilObjectID ∧ sent ≠ generated ∧
  POST_api_books generated [] book
  = ([Mongo.withID sent (convertToBookstore book)],
     mkResponse 200 (JSONMaps [ {[ "ID" := VObjectID sent ]} ])).
Proof.
  cbv zeta. split; [reflexivity|].
  split; [vm_compute; discriminate|]. split; [vm_compute; discriminate|].
  rewrite POST_inserted; [reflexivity | reflexivity | apply not_elem_of_nil].
Qed.

(** The theorem at the record of the end-to-end scenario, posted without
    identifier to the empty collection. *)
Lemma create_identifier_witness :
  let book := mkBook "" "Dune" "Herbert" "0-441-17271-7" 412 1965 in
  let generated := fst (ObjectIDFromHex "65f0c0de0000000000000001") in
  ID (convertToBookstore book) = NilObjectID ∧
  POST_api_books generated [] book
  = ([Mongo.withID generated (convertToBookstore book)],
     mkResponse 200 (JSONMaps [ {[ "ID" := VObjectID generated ]} ])).
Proof.
  cbv zeta.
  destruct (create_identifier
              (fst (ObjectIDFromHex "65f0c0de0000000000000001")) []
              (mkBook "" "Dune" "Herbert" "0-441-17271-7" 412 1965))
    as [H _].
  destruct (H (or_introl eq_refl)) as (Hzero & _ & Hpost).
  split; [exact Hzero|]. apply Hpost; [reflexivity | apply not_elem_of_nil].
Defined.

(** C2 (as amended). A POST whose five descriptive values are those of a
    stored record is answered with 304, a status that is neither a success
    nor one of the error statuses, and inserts nothing. A POST whose five
    values match no stored record, and whose insert is not refused (no
    stored record has the identifier it is written under: the one decoded
    from the wire, or the generated one when that is zero), appends exactly
    one record and is answered with 200 and that identifier. After a POST
    that has inserted, a POST with the same five values, whatever its
    identifier, is answered with 304 and inserts nothing. *)
Theorem create_guarded (generated : ObjectID) (coll : list BookStore)
    (book : Book) :
  let toPost := convertToBookstore book in
  let id := insertedID generated toPost in
  ((∃ d, d ∈ coll ∧ sameFields d toPost) →
     POST_api_books generated coll book
       = (coll, mkResponse 304 (JSONString "Duplicate not allowed")) ∧
     ¬ isSuccess 304 ∧ ¬ isError 304) ∧
  ((¬ ∃ d, d ∈ coll ∧ sameFields d toPost) → id ∉ ids coll →
     POST_api_books generated coll book
       = ((coll ++ [Mongo.withID id toPost])%list,
          mkResponse 200 (JSONMaps [ {[ "ID" := VObjectID id ]} ])) ∧
     length (fst (POST_api_books generated coll book)) = S (length coll) ∧
     isSuccess 200) ∧
  (∀ coll' m l,
     POST_api_books generated coll book
       = (coll', mkResponse 200 (JSONMaps (m :: l))) →
     ∀ generated' book',
       sameFields (convertToBookstore book') toPost →
       POST_api_books generated' coll' book'
         = (coll', mkResponse 304 (JSONString "Duplicate not allowed"))).
Proof.
  cbv zeta. split; [|split].
  - intros Hdup. apply checkIfDuplicateExists_true in Hdup.
    split; [apply POST_duplicate, Hdup|]. unfold isSuccess, isError. lia.
  - intros Hnone Hfresh. apply checkIfDuplicateExists_false in Hnone.
    rewrite POST_inserted by assumption.
    split; [reflexivity|]. split; [|unfold isSuccess; lia].
    cbn [fst]. rewrite length_app. cbn. lia.
  - intros coll' m l Hpost generated' book' Hsame.
    apply POST_success_inv in Hpost as (_ & _ & -> & _ & _).
    apply POST_duplicate, checkIfDuplicateExists_true.
    eexists. split; [apply elem_of_app; right; apply list_elem_of_singleton;
                     reflexivity|].
    destruct Hsame as (Hn & Ha & Hi & Hp & Hy).
    unfold sameFields, Mongo.withID.
    cbn [BookName BookAuthor BookISBN BookPages BookYear].
    repeat split; symmetry; assumption.
Qed.

(** C2, counterexample. The store holds one record; a POST carries other
    descriptive values and, as wire identifier, the identifier of that
    record. No stored record matches the five values, yet no record is
    inserted and the answer carries no identifier. *)
Lemma create_guarded_counterexample :
  let held := fst (ObjectIDFromHex "0123456789abcdef01234567") in
  let coll := [mkBookStore held "Dune" "Herbert" "0-441-17271-7" 412 1965] in
  let book := mkBook "0123456789abcdef01234567" "Dune Messiah" "Herbert"
                     "0-399-10071-7" 256 1969 in
  let generated := fst (ObjectIDFromHex "65f0c0de0000000000000001") in
  (¬ ∃ d, d ∈ coll ∧ sameFields d (convertToBookstore book)) ∧
  POST_api_books generated coll book
  = (coll, mkResponse 200 (JSONMaps [])).
Proof.
  cbv zeta. split.
  - apply checkIfDuplicateExists_false. reflexivity.
  - apply (POST_insert_error _ _ _ DuplicateKey); reflexivity.
Qed.

(** The theorem on the end-to-end scenario: the first POST of the record
    inserts it, the same POST again is answered with 304. *)
Lemma create_guarded_witness :
  let book := mkBook "" "Dune" "Herbert" "0-441-17271-7" 412 1965 in
  let generated := fst (ObjectIDFromHex "65f0c0de0000000000000001") in
  let stored := Mongo.withID generated (convertToBookstore book) in
  POST_api_books generated [] book
    = ([stored], mkResponse 200 (JSONMaps [ {[ "ID" := VObjectID generated ]} ])) ∧
  POST_api_books generated [stored] book
    = ([stored], mkResponse 304 (JSONString "Duplicate not allowed")).
Proof.
  cbv zeta. split.
  - apply (create_guarded
             (fst (ObjectIDFromHex "65f0c0de0000000000000001")) []
             (mkBook "" "Dune" "Herbert" "0-441-17271-7" 412 1965)).
    + intros (d & Hd & _). apply elem_of_nil in Hd. exact Hd.
    + apply not_elem_of_nil.
  - eapply (create_guarded
             (fst (ObjectIDFromHex "65f0c0de0000000000000001")) []
             (mkBook "" "Dune" "Herbert" "0-441-17271-7" 412 1965)).
    + reflexivity.
    + repeat split.
Defined.

(** C5 (as amended). When the store refuses the write of an insert,
    [saveBook] returns [nil] and the POST is answered with status 200 and a
    null body, no identifier in it; the collection is as before. *)
Theorem insert_failure_response (generated : ObjectID)
    (coll : list BookStore) (book : Book) (e : error) :
  checkIfDuplicateExists coll (convertToBookstore book) = false →
  snd (Mongo.InsertOne generated coll (convertToBookstore book)) = inr e →
  saveBook generated coll (convertToBookstore book) = (coll, []) ∧
  POST_api_books generated coll book = (coll, mkResponse 200 (JSONMaps [])).
Proof.
  intros Hguard Hfail. split.
  - unfold saveBook. rewrite (InsertOne_error _ _ _ _ Hfail). reflexivity.
  - apply (POST_insert_error _ _ _ e); assumption.
Qed.

(** C5, counterexample. The write of the insert fails (the store holds
    the identifier sent), and the POST is answered with 200, a success
    status. *)
Lemma insert_failure_response_counterexample :
  let held := fst (ObjectIDFromHex "0123456789abcdef01234567") in
  let coll := [mkBookStore held "Dune" "Herbert" "0-441-17271-7" 412 1965] in
  let book := mkBook "0123456789abcdef01234567" "Dune Messiah" "Herbert"
                     "0-399-10071-7" 256 1969 in
  let generated := fst (ObjectIDFromHex "65f0c0de0000000000000001") in
  checkIfDuplicateExists coll (convertToBookstore book) = false ∧
  snd (Mongo.InsertOne generated coll (convertToBookstore book))
    = inr DuplicateKey ∧
  status (snd (POST_api_books generated coll book)) = 200%Z ∧
  isSuccess (status (snd (POST_api_books generated coll book))).
Proof.
  cbv zeta. split; [reflexivity|]. split; [reflexivity|].
  split; [reflexivity|]. change (isSuccess 200). unfold isSuccess. lia.
Qed.

Lemma insert_failure_response_witness :
  let held := fst (ObjectIDFromHex "0123456789abcdef01234567") in
  let coll := [mkBookStore held "Dune" "Herbert" "0-441-17271-7" 412 1965] in
  let book := mkBook "0123456789abcdef01234567" "Dune Messiah" "Herbert"
                     "0-399-10071-7" 256 1969 in
  let generated := fst (ObjectIDFromHex "65f0c0de0000000000000001") in
  POST_api_books generated coll book = (coll, mkResponse 200 (JSONMaps [])).
Proof.
  cbv zeta.
  apply (insert_failure_response
           (fst (ObjectIDFromHex "65f0c0de0000000000000001"))
           [mkBookStore (fst (ObjectIDFromHex "0123456789abcdef01234567"))
                        "Dune" "Herbert" "0-441-17271-7" 412 1965]
           (mkBook "0123456789abcdef01234567" "Dune Messiah" "Herbert"
                   "0-399-10071-7" 256 1969)
           DuplicateKey); reflexivity.
Defined.

(** ** The zero identifier is not in the store

    Every handler keeps a collection free of the zero identifier, the
    driver never generating it. *)
Section ZeroIdentifier.

Variable coll : list BookStore.
Hypothesis Hnz : noZeroID coll.

Lemma noZeroID_POST (generated : ObjectID) (book : Book) :
  generated ≠ NilObjectID →
  noZeroID (fst (POST_api_books generated coll book)).
Proof.
  intros Hgen.
  destruct (checkIfDuplicateExists coll (convertToBookstore book)) eqn:Hguard.
  { rewrite POST_duplicate by exact Hguard. exact Hnz. }
  destruct (decide (insertedID generated (convertToBookstore book) ∈ ids coll))
    as [Hin|Hout].
  - rewrite (POST_insert_error _ _ _ DuplicateKey Hguard); [exact Hnz|].
    rewrite InsertOne_taken by exact Hin. reflexivity.
  - rewrite POST_inserted by assumption. cbn [fst].
    unfold noZeroID, ids in *. rewrite map_app, elem_of_app.
    intros [Hold|Hnew]; [exact (Hnz Hold)|].
    cbn in Hnew. apply list_elem_of_singleton in Hnew.
    unfold insertedID, IsZero in Hnew.
    destruct (bool_decide (ID (convertToBookstore book) = NilObjectID)) eqn:Hz.
    + congruence.
    + apply bool_decide_eq_false in Hz. congruence.
Qed.

Lemma noZeroID_PUT (book : Book) : noZeroID (fst (PUT_api_books coll book)).
Proof.
  unfold PUT_api_books. cbv zeta.
  destruct (checkIfDuplicateExists coll (convertToBookstore book)); [exact Hnz|].
  cbn [fst]. unfold noZeroID, updateBook. cbv zeta.
  rewrite ids_UpdateOne. exact Hnz.
Qed.

Lemma noZeroID_DELETE (id : string) :
  noZeroID (fst (DELETE_api_books_id coll id)).
Proof.
  unfold DELETE_api_books_id, deleteBook, noZeroID. cbv zeta. cbn [fst].
  intros H. apply ids_DeleteOne in H. exact (Hnz H).
Qed.

End ZeroIdentifier.

(** Whatever the requests, a collection free of the zero identifier stays
    so. *)
Lemma noZeroID_serveAll (reqs : list Request) (coll : list BookStore) :
  noZeroID coll → Forall generatesNonZero reqs →
  noZeroID (fst (serveAll coll reqs)).
Proof.
  revert coll. induction reqs as [|req rest IH]; intros coll Hnz Hgen.
  - exact Hnz.
  - apply Forall_cons in Hgen as [Hreq Hrest]. cbn [serveAll].
    assert (Hstep : noZeroID (fst (serve coll req))).
    { destruct req as [|generated book|book|id]; cbn [serve].
      - exact Hnz.
      - apply noZeroID_POST; assumption.
      - apply noZeroID_PUT, Hnz.
      - apply noZeroID_DELETE, Hnz. }
    destruct (serve coll req) as [coll' resp]. cbn [fst] in Hstep.
    specialize (IH coll' Hstep Hrest).
    destruct (serveAll coll' rest) as [coll'' resps]. exact IH.
Qed.

(** The end-to-end scenario of the specification, on the empty
    collection: create, list, create again, update, list, delete, list. *)
Example end_to_end_scenario :
  let dune := mkBook "" "Dune" "Herbert" "0-441-17271-7" 412 1965 in
  let generated := fst (ObjectIDFromHex "65f0c0de0000000000000001") in
  let revised := mkBook "65f0c0de0000000000000001" "Dune" "Herbert"
                        "0-441-17271-7" 413 1965 in
  map status
    (snd (serveAll []
            [POST generated dune; GET; POST generated dune; PUT revised; GET;
             DELETE "65f0c0de0000000000000001"; GET]))
    = [200; 200; 304; 200; 200; 200; 200]%Z ∧
  fst (serveAll [] [POST generated dune; PUT revised])
    = [mkBookStore generated "Dune" "Herbert" "0-441-17271-7" 413 1965] ∧
  fst (serveAll []
         [POST generated dune; PUT revised; DELETE "65f0c0de0000000000000001"])
    = [].
Proof. cbv zeta. split; [|split]; vm_compute; reflexivity. Qed.

(** ** DELETE /api/books/:id *)

(** C8. A DELETE always answers 200 with the same confirmation, whatever
    the path identifier and whether or not a record goes. A path
    identifier that fails to decode is replaced by the zero identifier:
    the delete is the delete of [NilObjectID], which, no stored record
    carrying the zero identifier, matches nothing and leaves the store as
    it is. Deleting an identifier that no record has leaves the store
    unchanged, with the answer of a delete that removes a record. *)
Theorem delete_tolerant (coll : list BookStore) (id : string) :
  snd (DELETE_api_books_id coll id)
    = mkResponse 200 (JSONString "Succesfully deleted entry") ∧
  (¬ decodes id →
     fst (DELETE_api_books_id coll id) = deleteBook coll NilObjectID ∧
     (noZeroID coll → fst (DELETE_api_books_id coll id) = coll)) ∧
  (fst (ObjectIDFromHex id) ∉ ids coll →
     fst (DELETE_api_books_id coll id) = coll) ∧
  (∀ (coll' : list BookStore) (id' : string),
     fst (ObjectIDFromHex id') ∈ ids coll' →
     S (length (fst (DELETE_api_books_id coll' id'))) = length coll' ∧
     snd (DELETE_api_books_id coll' id') = snd (DELETE_api_books_id coll id)).
Proof.
  split; [reflexivity|]. split; [|split].
  - intros Hbad. apply ObjectIDFromHex_error in Hbad.
    unfold DELETE_api_books_id. cbv zeta. cbn [fst]. rewrite Hbad.
    split; [reflexivity|]. intros Hnz. apply deleteBook_absent, Hnz.
  - intros Habsent. apply deleteBook_absent, Habsent.
  - intros coll' id' Hin. split; [|reflexivity].
    apply deleteBook_present, Hin.
Qed.

(** The theorem on a store holding one record: a path identifier that is
    no hex string, and one that decodes to an identifier not held. *)
Lemma delete_tolerant_witness :
  let held := fst (ObjectIDFromHex "0123456789abcdef01234567") in
  let coll := [mkBookStore held "Dune" "Herbert" "0-441-17271-7" 412 1965] in
  DELETE_api_books_id coll "not-an-identifier"
    = (coll, mkResponse 200 (JSONString "Succesfully deleted entry")) ∧
  DELETE_api_books_id coll "ffffffffffffffffffffffff"
    = (coll, mkResponse 200 (JSONString "Succesfully deleted entry")) ∧
  DELETE_api_books_id coll "0123456789abcdef01234567"
    = ([], mkResponse 200 (JSONString "Succesfully deleted entry")).
Proof.
  cbv zeta.
  pose (coll := [mkBookStore (fst (ObjectIDFromHex "0123456789abcdef01234567"))
                   "Dune" "Herbert" "0-441-17271-7" 412 1965]).
  destruct (delete_tolerant coll "not-an-identifier") as (Hr1 & Hbad & _ & _).
  destruct (delete_tolerant coll "ffffffffffffffffffffffff") as (Hr2 & _ & Habs & _).
  split; [|split].
  - apply injective_projections; [|exact Hr1].
    apply Hbad; [discriminate|]. unfold noZeroID.
    intros H. vm_compute in H. apply list_elem_of_singleton in H. discriminate H.
  - apply injective_projections; [|exact Hr2].
    apply Habs. intros H. vm_compute in H.
    apply list_elem_of_singleton in H. discriminate H.
  - reflexivity.
Defined.

(** ** PUT /api/books *)

Lemma PUT_store (coll : list BookStore) (book : Book) :
  fst (PUT_api_books coll book)
  = if checkIfDuplicateExists coll (convertToBookstore book) then coll
    else updateBook coll (convertToBookstore book).
Proof.
  unfold PUT_api_books. cbv zeta.
  destruct (checkIfDuplicateExists coll _); reflexivity.
Qed.

(** C9. Update is idempotent on the identifier. For every identifier and
    five field values, [updateBook] applied twice leaves the collection as
    [updateBook] applied once does; the same holds of the PUT handler,
    guard included; and so [getAllBooks] lists the same records after two
    updates as after one. *)
Theorem update_idempotent (coll : list BookStore) (id : ObjectID)
    (name author isbn : string) (pages year : Z) :
  let updatedBook := mkBookStore id name author isbn pages year in
  updateBook (updateBook coll updatedBook) updatedBook
    = updateBook coll updatedBook ∧
  getAllBooks (updateBook (updateBook coll updatedBook) updatedBook)
    = getAllBooks (updateBook coll updatedBook) ∧
  (∀ book : Book,
     fst (PUT_api_books (fst (PUT_api_books coll book)) book)
       = fst (PUT_api_books coll book)).
Proof.
  cbv zeta. split; [apply updateBook_idem|].
  split; [rewrite updateBook_idem; reflexivity|].
  intros book. rewrite (PUT_store coll book).
  destruct (checkIfDuplicateExists coll (convertToBookstore book)) eqn:Hguard;
    rewrite PUT_store.
  - rewrite Hguard. reflexivity.
  - destruct (checkIfDuplicateExists
                (updateBook coll (convertToBookstore book))
                (convertToBookstore book));
      [reflexivity | apply updateBook_idem].
Qed.

(** C10 (as amended). A PUT whose wire identifier is empty or fails to
    decode is not rejected for it: the record handed on carries the zero
    identifier and the Duplicate Guard runs on the new field values. When
    the guard finds a record with these values the answer is 201 with
    "Duplicate not allowed" and the store is untouched; when it finds none,
    the update is that of the zero identifier, which, no stored record
    carrying it, matches nothing: the store is unchanged and the answer is
    200 with the update confirmation. *)
Theorem update_without_identifier (coll : list BookStore) (book : Book) :
  Book_ID book = "" ∨ ¬ decodes (Book_ID book) →
  ID (convertToBookstore book) = NilObjectID ∧
  (checkIfDuplicateExists coll (convertToBookstore book) = true →
     PUT_api_books coll book
       = (coll, mkResponse 201 (JSONString "Duplicate not allowed"))) ∧
  (checkIfDuplicateExists coll (convertToBookstore book) = false →
     PUT_api_books coll book
       = (updateBook coll (convertToBookstore book),
          mkResponse 200 (JSONString "Updated the book")) ∧
     (noZeroID coll →
        PUT_api_books coll book
          = (coll, mkResponse 200 (JSONString "Updated the book")))).
Proof.
  intros Hid.
  assert (Hzero : ID (convertToBookstore book) = NilObjectID).
  { apply convertToBookstore_zero.
    destruct Hid as [Hempty|Hbad]; [left; exact Hempty|].
    right. apply ObjectIDFromHex_error, Hbad. }
  split; [exact Hzero|]. unfold PUT_api_books. cbv zeta.
  split; intros ->; [reflexivity|].
  split; [reflexivity|]. intros Hnz.
  rewrite updateBook_absent; [reflexivity|]. rewrite Hzero. exact Hnz.
Qed.

(** C10, counterexample. The store holds a record; a PUT with an empty
    wire identifier and that record's five values is answered with 201 and
    "Duplicate not allowed", not with 200 and the update confirmation. *)
Lemma update_without_identifier_counterexample :
  let held := fst (ObjectIDFromHex "0123456789abcdef01234567") in
  let coll := [mkBookStore held "Dune" "Herbert" "0-441-17271-7" 412 1965] in
  let book := mkBook "" "Dune" "Herbert" "0-441-17271-7" 412 1965 in
  PUT_api_books coll book
    = (coll, mkResponse 201 (JSONString "Duplicate not allowed")) ∧
  snd (PUT_api_books coll book)
    ≠ mkResponse 200 (JSONString "Updated the book").
Proof. cbv zeta. split; [reflexivity|]. vm_compute. discriminate. Qed.

(** The theorem on a store holding one record, for a PUT with a wire
    identifier that is no hex string and new field values. *)
Lemma update_without_identifier_witness :
  let held := fst (ObjectIDFromHex "0123456789abcdef01234567") in
  let coll := [mkBookStore held "Dune" "Herbert" "0-441-17271-7" 412 1965] in
  let book := mkBook "not-an-identifier" "Dune" "Herbert" "0-441-17271-7"
                     413 1965 in
  PUT_api_books coll book
    = (coll, mkResponse 200 (JSONString "Updated the book")).
Proof.
  cbv zeta.
  apply (update_without_identifier
           [mkBookStore (fst (ObjectIDFromHex "0123456789abcdef01234567"))
                        "Dune" "Herbert" "0-441-17271-7" 412 1965]
           (mkBook "not-an-identifier" "Dune" "Herbert" "0-441-17271-7"
                   413 1965)).
  - right. discriminate.
  - reflexivity.
  - unfold noZeroID. intros H. vm_compute in H.
    apply list_elem_of_singleton in H. discriminate H.
Defined.

(** ** Start-up *)
Section Bootstrap.

Lemma Contains_true (names : list string) (v : string) :
  Contains names v = true ↔ v ∈ names.
Proof.
  unfold Contains. rewrite existsb_exists. split.
  - intros (x & Hin & Heq). apply String.eqb_eq in Heq. subst x.
    apply list_elem_of_In, Hin.
  - intros Hin. exists v. split; [apply list_elem_of_In, Hin|].
    apply String.eqb_refl.
Qed.

(** The names listed are those of the collections of the database. *)
Lemma ListCollectionNames_listed (client : Client) (dbName : string)
    (names : list string) (v : string) :
  Driver.ListCollectionNames client dbName = inl names →
  v ∈ names ↔ is_Some (Driver.database client dbName !! v).
Proof.
  unfold Driver.ListCollectionNames.
  destruct (reachable client); [|discriminate]. intros [= <-].
  rewrite list_elem_of_fmap. split.
  - intros ([k docs] & -> & Hin). apply elem_of_map_to_list in Hin.
    exists docs. exact Hin.
  - intros [docs Hdocs]. exists (v, docs).
    split; [reflexivity | apply elem_of_map_to_list, Hdocs].
Qed.

Lemma prepareDatabase_list_error (client : Client) (dbName collecName : string)
    (err : error) :
  Driver.ListCollectionNames client dbName = inr err →
  prepareDatabase client dbName collecName = Continue (client, (None, Some err)).
Proof. intros H. unfold prepareDatabase. rewrite H. reflexivity. Qed.

Lemma prepareDatabase_present (client : Client) (dbName collecName : string)
    (names : list string) :
  Driver.ListCollectionNames client dbName = inl names →
  Contains names collecName = true →
  prepareDatabase client dbName collecName
  = Continue (client, (Some (mkCollection dbName collecName), None)).
Proof.
  intros Hlist Hin. unfold prepareDatabase. rewrite Hlist, Hin. reflexivity.
Qed.

Lemma prepareDatabase_missing (client : Client) (dbName collecName : string)
    (names : list string) :
  Driver.ListCollectionNames client dbName = inl names →
  Contains names collecName = false →
  ∃ client' names',
    prepareDatabase client dbName collecName
      = Continue (client', (Some (mkCollection dbName collecName), None)) ∧
    issued client' = (issued client ++ [(dbName, collecName)])%list ∧
    Driver.ListCollectionNames client' dbName = inl names' ∧
    Contains names' collecName = true.
Proof.
  intros Hlist Hout.
  assert (Hnone : Driver.database client dbName !! collecName = None).
  { apply eq_None_not_Some. intros Hsome.
    apply (ListCollectionNames_listed _ _ _ collecName Hlist) in Hsome.
    apply Contains_true in Hsome. congruence. }
  assert (Hup : reachable client = true).
  { unfold Driver.ListCollectionNames in Hlist.
    destruct (reachable client); [reflexivity | discriminate]. }
  unfold prepareDatabase. rewrite Hlist, Hout. cbn [negb].
  unfold Driver.RunCommand_create. cbv zeta. rewrite Hup, Hnone. cbn [negb].
  eexists. eexists. split; [reflexivity|]. split; [reflexivity|].
  unfold Driver.ListCollectionNames. cbn [reachable].
  split; [reflexivity|].
  apply Contains_true, list_elem_of_fmap. exists (collecName, []).
  split; [reflexivity|]. apply elem_of_map_to_list.
  unfold Driver.database. cbn [databases].
  rewrite lookup_insert_eq. cbn [default]. apply lookup_insert_eq.
Qed.

(** With a [nil] collection the first round of [prepareData] panics. *)
Lemma prepareData_nil (generated : nat → ObjectID) (client : Client) :
  prepareData generated client None = Panic (inr nilDereference).
Proof. reflexivity. Qed.

End Bootstrap.

(** C6. Collection bootstrapping, [prepareDatabase]: when the list of
    collection names has the name, nothing is sent and the deployment is
    as before; when it has not, exactly one [create] for that name is sent,
    after which the list has it; in either case the handle on the
    collection is returned. Run again on the deployment it leaves, it
    returns the same and changes nothing: it is idempotent. When the list
    operation fails, [prepareDatabase] returns the error and no collection,
    and [main] does not get to serving: it ends in a panic (or, with no
    connection string, in exit code 1). *)
Theorem bootstrap_collection (client : Client) (dbName collecName : string) :
  (∀ names, Driver.ListCollectionNames client dbName = inl names →
     (Contains names collecName = true →
        prepareDatabase client dbName collecName
        = Continue (client, (Some (mkCollection dbName collecName), None))) ∧
     (Contains names collecName = false →
        ∃ client' names',
          prepareDatabase client dbName collecName
            = Continue (client', (Some (mkCollection dbName collecName), None)) ∧
          issued client' = (issued client ++ [(dbName, collecName)])%list ∧
          Driver.ListCollectionNames client' dbName = inl names' ∧
          Contains names' collecName = true)) ∧
  (∀ client' r,
     prepareDatabase client dbName collecName = Continue (client', r) →
     prepareDatabase client' dbName collecName = Continue (client', r)) ∧
  (∀ err, Driver.ListCollectionNames client "exercise-1" = inr err →
     prepareDatabase client "exercise-1" "information"
       = Continue (client, (None, Some err)) ∧
     ∀ uri generated,
       (main uri generated client = OsExit 1 ∨
        main uri generated client = Panic (inr nilDereference)) ∧
       ∀ serving, main uri generated client ≠ Continue serving).
Proof.
  split; [|split].
  - intros names Hlist.
    split; [apply prepareDatabase_present, Hlist
           | apply prepareDatabase_missing, Hlist].
  - intros client' r.
    destruct (Driver.ListCollectionNames client dbName) as [names|err] eqn:Hlist.
    + destruct (Contains names collecName) eqn:Hin.
      * rewrite (prepareDatabase_present _ _ _ _ Hlist Hin).
        intros [= <- <-]. apply (prepareDatabase_present _ _ _ _ Hlist Hin).
      * destruct (prepareDatabase_missing _ _ _ _ Hlist Hin)
          as (created & names' & -> & _ & Hlist' & Hin').
        intros [= <- <-]. apply (prepareDatabase_present _ _ _ _ Hlist' Hin').
    + rewrite (prepareDatabase_list_error _ _ _ _ Hlist).
      intros [= <- <-]. apply prepareDatabase_list_error, Hlist.
  - intros err Hlist.
    split; [apply prepareDatabase_list_error, Hlist|].
    intros uri generated. unfold main.
    rewrite (prepareDatabase_list_error _ _ _ _ Hlist).
    destruct (String.length uri =? 0)%nat.
    + split; [left; reflexivity | discriminate].
    + cbn. split; [right; reflexivity | discriminate].
Qed.

(** The theorem on an empty deployment that answers, where the collection
    is created and the second run sends nothing, and on one that does not
    answer, where [main] panics. *)
Lemma bootstrap_collection_witness :
  let fresh := mkClient true ∅ [] in
  let down := mkClient false ∅ [] in
  (∃ client',
     prepareDatabase fresh "exercise-1" "information"
       = Continue (client', (Some (mkCollection "exercise-1" "information"), None)) ∧
     issued client' = [("exercise-1", "information")] ∧
     prepareDatabase client' "exercise-1" "information"
       = Continue (client', (Some (mkCollection "exercise-1" "information"), None))) ∧
  ∀ generated serving,
    main "mongodb://mongodb:27017" generated down ≠ Continue serving.
Proof.
  cbv zeta.
  destruct (bootstrap_collection (mkClient true ∅ []) "exercise-1" "information")
    as (Hlist & Hidem & _).
  destruct (bootstrap_collection (mkClient false ∅ []) "exercise-1" "information")
    as (_ & _ & Hdown).
  split.
  - destruct (Hlist [] eq_refl) as [_ Hmissing].
    destruct (Hmissing eq_refl) as (client' & names' & Hrun & Hsent & _ & _).
    exists client'. split; [exact Hrun|]. split; [exact Hsent|].
    apply Hidem, Hrun.
  - intros generated serving.
    destruct (Hdown ServerSelectionError eq_refl) as [_ Hmain].
    apply Hmain.
Defined.

(** ** The method router *)
Section Routing.

Lemma prefix_api_slash (uri : string) :
  String.prefix "/api" uri = true → String.prefix "/" uri = true.
Proof.
  destruct uri as [|c rest]; [discriminate|].
  cbn [String.prefix].
  destruct (Ascii.ascii_dec "/" c); [intros _ | discriminate].
  destruct rest; reflexivity.
Qed.

Lemma select_api (uri : string) :
  String.prefix "/api" uri = true →
  Router.select uri
  = Some (Router.mkLocation "/api" None
            [("GET", "get"); ("POST", "post"); ("PUT", "put");
             ("DELETE", "delete")]).
Proof.
  intros Hapi. pose proof (prefix_api_slash uri Hapi) as Hslash.
  unfold Router.select, Router.locations.
  cbn [fold_left Router.prefix]. rewrite Hslash, Hapi. reflexivity.
Qed.

Lemma select_other (uri : string) :
  String.prefix "/api" uri = false → String.prefix "/" uri = true →
  Router.select uri = Some (Router.mkLocation "/" (Some "backend") []).
Proof.
  intros Hapi Hslash. unfold Router.select, Router.locations.
  cbn [fold_left Router.prefix]. rewrite Hslash, Hapi. reflexivity.
Qed.

(** Under [/api] a method other than the four is forwarded to no pool. *)
Lemma route_api_other_method (method uri : string) :
  String.prefix "/api" uri = true →
  method ≠ "GET" → method ≠ "POST" → method ≠ "PUT" → method ≠ "DELETE" →
  Router.route method uri = None.
Proof.
  intros Hapi Hget Hpost Hput Hdelete. unfold Router.route.
  rewrite select_api by exact Hapi. unfold Router.forward.
  cbn [fold_left Router.if_request_method Router.proxy_pass fst snd].
  apply String.eqb_neq in Hget, Hpost, Hput, Hdelete.
  rewrite Hget, Hpost, Hput, Hdelete. reflexivity.
Qed.

End Routing.

(** C3. A request whose path begins with [/api] goes to the pool of its
    method: GET to [get], POST to [post], PUT to [put], DELETE to [delete].
    A request whose path (which begins with [/], as every request path
    does) does not begin with [/api] goes to [backend], the full pool,
    whatever its method. *)
Theorem route_by_method (method uri : string) :
  (String.prefix "/api" uri = true →
     (method = "GET" → Router.route method uri = Some "get") ∧
     (method = "POST" → Router.route method uri = Some "post") ∧
     (method = "PUT" → Router.route method uri = Some "put") ∧
     (method = "DELETE" → Router.route method uri = Some "delete")) ∧
  (String.prefix "/api" uri = false → String.prefix "/" uri = true →
     Router.route method uri = Some "backend").
Proof.
  split.
  - intros Hapi. unfold Router.route. rewrite select_api by exact Hapi.
    repeat split; intros ->; reflexivity.
  - intros Hapi Hslash. unfold Router.route.
    rewrite select_other by assumption. reflexivity.
Qed.

(** The theorem at the requests of the specification's dispatch
    property. *)
Lemma route_by_method_witness :
  Router.route "GET" "/api/books" = Some "get" ∧
  Router.route "POST" "/api/books" = Some "post" ∧
  Router.route "PUT" "/api/books" = Some "put" ∧
  Router.route "DELETE" "/api/books/0123456789abcdef01234567" = Some "delete" ∧
  Router.route "GET" "/" = Some "backend" ∧
  Router.route "POST" "/" = Some "backend".
Proof.
  split; [|split; [|split; [|split; [|split]]]].
  - apply (route_by_method "GET" "/api/books"); reflexivity.
  - apply (route_by_method "POST" "/api/books"); reflexivity.
  - apply (route_by_method "PUT" "/api/books"); reflexivity.
  - apply (route_by_method "DELETE" "/api/books/0123456789abcdef01234567");
      reflexivity.
  - apply (route_by_method "GET" "/"); reflexivity.
  - apply (route_by_method "POST" "/"); reflexivity.
Defined.

(** * Further properties of the code *)

(** ** Shape of the store operations *)
Section StoreShape.

Lemma sameFields_fields (d book : BookStore) :
  sameFields d book ↔ fields d = fields book.
Proof.
  unfold sameFields, fields. split.
  - intros (-> & -> & -> & -> & ->). reflexivity.
  - intros [= -> -> -> -> ->]. repeat split.
Qed.

Lemma checkIfDuplicateExists_fields (coll : list BookStore) (book : BookStore) :
  checkIfDuplicateExists coll book = true ↔ fields book ∈ map fields coll.
Proof.
  rewrite checkIfDuplicateExists_true, list_elem_of_fmap. split.
  - intros (d & Hin & Hsame). exists d.
    split; [symmetry; apply sameFields_fields, Hsame | exact Hin].
  - intros (d & Heq & Hin). exists d.
    split; [exact Hin | apply sameFields_fields; symmetry; exact Heq].
Qed.

(** What [$set] with the map of [updateBook] makes of a document. *)
Lemma applySet_update (n a i : string) (p y : Z) (d : BookStore) :
  Mongo.applySet
    (list_to_map
       [("bookname", VString n); ("bookauthor", VString a);
        ("bookisbn", VString i); ("bookpages", VInt p); ("bookyear", VInt y)])
    d
  = mkBookStore (ID d) n a i p y.
Proof. reflexivity. Qed.

(** With distinct identifiers, the update by [_id] changes the document
    at the position of that identifier, and only it. *)
Lemma UpdateOne_id_at (coll : list BookStore) (i : nat) (d : BookStore)
    (set : gmap string Value) :
  NoDup (ids coll) → coll !! i = Some d →
  fst (Mongo.UpdateOne coll {[ "_id" := VObjectID (ID d) ]} set)
  = <[i := Mongo.applySet set d]> coll.
Proof.
  revert i. induction coll as [|x rest IH]; intros i Hnd Hi; [discriminate|].
  cbn [ids map] in Hnd. apply NoDup_cons in Hnd as [Hx Hrest].
  cbn [Mongo.UpdateOne]. rewrite matches_id. unfold Mongo.hasID.
  destruct i as [|j]; cbn in Hi.
  - injection Hi as ->. rewrite bool_decide_eq_true_2 by reflexivity.
    reflexivity.
  - assert (Hne : ID x ≠ ID d).
    { intros Heq. apply Hx. rewrite Heq.
      apply list_elem_of_fmap. exists d.
      split; [reflexivity | eapply list_elem_of_lookup_2, Hi]. }
    rewrite bool_decide_eq_false_2 by exact Hne.
    specialize (IH j Hrest Hi).
    destruct (Mongo.UpdateOne rest _ set) as [rest' n]. cbn [fst] in *.
    rewrite IH. reflexivity.
Qed.

Lemma DeleteOne_id_at (coll : list BookStore) (i : nat) (d : BookStore) :
  NoDup (ids coll) → coll !! i = Some d →
  fst (Mongo.DeleteOne coll {[ "_id" := VObjectID (ID d) ]}) = delete i coll.
Proof.
  revert i. induction coll as [|x rest IH]; intros i Hnd Hi; [discriminate|].
  cbn [ids map] in Hnd. apply NoDup_cons in Hnd as [Hx Hrest].
  cbn [Mongo.DeleteOne]. rewrite matches_id. unfold Mongo.hasID.
  destruct i as [|j]; cbn in Hi.
  - injection Hi as ->. rewrite bool_decide_eq_true_2 by reflexivity.
    reflexivity.
  - assert (Hne : ID x ≠ ID d).
    { intros Heq. apply Hx. rewrite Heq.
      apply list_elem_of_fmap. exists d.
      split; [reflexivity | eapply list_elem_of_lookup_2, Hi]. }
    rewrite bool_decide_eq_false_2 by exact Hne.
    specialize (IH j Hrest Hi).
    destruct (Mongo.DeleteOne rest _) as [rest' n]. cbn [fst] in *.
    rewrite IH. reflexivity.
Qed.

(** [DeleteOne] leaves a sublist, at most one document shorter. *)
Lemma DeleteOne_sublist (coll : list BookStore) (filter : gmap string Value) :
  fst (Mongo.DeleteOne coll filter) `sublist_of` coll ∧
  (length coll ≤ S (length (fst (Mongo.DeleteOne coll filter))))%nat.
Proof.
  induction coll as [|x rest [IHs IHl]]; [split; [constructor | cbn; lia]|].
  cbn [Mongo.DeleteOne]. destruct (Mongo.matches filter x).
  - cbn [fst]. split; [apply sublist_cons; reflexivity | cbn; lia].
  - destruct (Mongo.DeleteOne rest filter) as [rest' n]. cbn [fst] in *.
    split; [apply sublist_skip, IHs | cbn; lia].
Qed.

(** The values an update leaves in the collection are the old ones and
    the one it writes. *)
Lemma fields_UpdateOne (coll : list BookStore) (filter set : gmap string Value)
    (v x : string * string * string * Z * Z) :
  (∀ d, fields (Mongo.applySet set d) = v) →
  x ∈ map fields (fst (Mongo.UpdateOne coll filter set)) →
  x ∈ map fields coll ∨ x = v.
Proof.
  intros Hv. induction coll as [|d rest IH]; [intros H; left; exact H|].
  cbn [Mongo.UpdateOne]. destruct (Mongo.matches filter d).
  - cbn [fst map]. rewrite !elem_of_cons, Hv.
    intros [->|H]; [right; reflexivity | left; right; exact H].
  - destruct (Mongo.UpdateOne rest filter set) as [rest' n]. cbn [fst map] in *.
    rewrite !elem_of_cons. intros [->|H]; [left; left; reflexivity|].
    destruct (IH H) as [Hin| ->]; [left; right; exact Hin | right; reflexivity].
Qed.

Lemma uniqueFields_UpdateOne (coll : list BookStore)
    (filter set : gmap string Value) (v : string * string * string * Z * Z) :
  (∀ d, fields (Mongo.applySet set d) = v) →
  v ∉ map fields coll → uniqueFields coll →
  uniqueFields (fst (Mongo.UpdateOne coll filter set)).
Proof.
  intros Hv. unfold uniqueFields.
  induction coll as [|d rest IH]; [intros _ H; exact H|].
  cbn [map]. rewrite not_elem_of_cons, NoDup_cons.
  intros [Hvd Hvrest] [Hd Hnd].
  cbn [Mongo.UpdateOne]. destruct (Mongo.matches filter d).
  - cbn [fst map]. apply NoDup_cons. rewrite Hv. split; assumption.
  - pose proof (fields_UpdateOne rest filter set v (fields d) Hv) as Hin.
    specialize (IH Hvrest Hnd).
    destruct (Mongo.UpdateOne rest filter set) as [rest' n]. cbn [fst map] in *.
    apply NoDup_cons. split; [|exact IH].
    intros H. destruct (Hin H) as [Hold|Heq]; [exact (Hd Hold) | congruence].
Qed.

End StoreShape.

(** ** What the handlers do to the collection *)
Section HandlerEffects.

Lemma NoDup_delete_absent {A : Type} (l : list A) (i : nat) (x : A) :
  NoDup l → l !! i = Some x → x ∉ delete i l.
Proof.
  revert i. induction l as [|y l IH]; intros i Hnd Hi; [discriminate|].
  apply NoDup_cons in Hnd as [Hy Hnd]. destruct i as [|j]; cbn in *.
  - injection Hi as ->. exact Hy.
  - rewrite not_elem_of_cons. split; [|apply (IH j); assumption].
    intros ->. apply Hy. eapply list_elem_of_lookup_2, Hi.
Qed.

Lemma ids_delete (coll : list BookStore) (i : nat) :
  ids (delete i coll) = delete i (ids coll).
Proof.
  revert i. induction coll as [|d coll IH]; intros [|j]; try reflexivity.
  cbn. f_equal. apply IH.
Qed.

Lemma getAllBooks_lookup (coll : list BookStore) (i : nat)
    (m : gmap string Value) :
  getAllBooks coll !! i = Some m →
  ∃ d, coll !! i = Some d ∧ m !! "id" = Some (VString (Hex (ID d))).
Proof.
  unfold getAllBooks. cbv zeta. rewrite Find_all, list_lookup_fmap.
  destruct (coll !! i) as [d|]; [|discriminate]. intros [= <-].
  exists d. split; reflexivity.
Qed.

Lemma convertToBookstore_Hex (id : ObjectID) (n a i : string) (p y : Z) :
  convertToBookstore (mkBook (Hex id) n a i p y) = mkBookStore id n a i p y.
Proof.
  unfold convertToBookstore. cbn [Book_ID Name Author ISBN Pages Year].
  change (String.eqb (Hex id) "") with false. cbn [negb].
  rewrite ObjectIDFromHex_Hex. reflexivity.
Qed.

Lemma uniqueIDs_POST (generated : ObjectID) (coll : list BookStore)
    (book : Book) :
  uniqueIDs coll → uniqueIDs (fst (POST_api_books generated coll book)).
Proof.
  intros Hnd.
  destruct (checkIfDuplicateExists coll (convertToBookstore book)) eqn:Hguard.
  { rewrite POST_duplicate by exact Hguard. exact Hnd. }
  destruct (decide (insertedID generated (convertToBookstore book) ∈ ids coll))
    as [Hin|Hout].
  - rewrite (POST_insert_error _ _ _ DuplicateKey Hguard); [exact Hnd|].
    rewrite InsertOne_taken by exact Hin. reflexivity.
  - rewrite POST_inserted by assumption. cbn [fst].
    unfold uniqueIDs, ids in *. rewrite map_app. apply NoDup_app.
    split; [exact Hnd|]. split; [|apply NoDup_singleton].
    intros x Hx Hnew. cbn in Hnew. apply list_elem_of_singleton in Hnew.
    subst x. exact (Hout Hx).
Qed.

Lemma uniqueIDs_DELETE (coll : list BookStore) (id : string) :
  uniqueIDs coll → uniqueIDs (fst (DELETE_api_books_id coll id)).
Proof.
  unfold uniqueIDs, DELETE_api_books_id, deleteBook, ids. cbv zeta. cbn [fst].
  intros Hnd. eapply sublist_NoDup; [exact Hnd|].
  apply (fmap_sublist _), DeleteOne_sublist.
Qed.

Lemma uniqueFields_POST (generated : ObjectID) (coll : list BookStore)
    (book : Book) :
  uniqueFields coll → uniqueFields (fst (POST_api_books generated coll book)).
Proof.
  intros Hnd.
  destruct (checkIfDuplicateExists coll (convertToBookstore book)) eqn:Hguard.
  { rewrite POST_duplicate by exact Hguard. exact Hnd. }
  destruct (decide (insertedID generated (convertToBookstore book) ∈ ids coll))
    as [Hin|Hout].
  - rewrite (POST_insert_error _ _ _ DuplicateKey Hguard); [exact Hnd|].
    rewrite InsertOne_taken by exact Hin. reflexivity.
  - rewrite POST_inserted by assumption. cbn [fst].
    unfold uniqueFields in *. rewrite map_app. apply NoDup_app.
    split; [exact Hnd|]. split; [|apply NoDup_singleton].
    intros x Hx Hnew. cbn in Hnew. apply list_elem_of_singleton in Hnew.
    subst x.
    change (fields (convertToBookstore book) ∈ map fields coll) in Hx.
    apply checkIfDuplicateExists_fields in Hx. congruence.
Qed.

Lemma uniqueFields_PUT (coll : list BookStore) (book : Book) :
  uniqueFields coll → uniqueFields (fst (PUT_api_books coll book)).
Proof.
  intros Hnd. rewrite PUT_store.
  destruct (checkIfDuplicateExists coll (convertToBookstore book)) eqn:Hguard;
    [exact Hnd|].
  unfold updateBook. cbv zeta.
  apply (uniqueFields_UpdateOne _ _ _ (fields (convertToBookstore book)));
    [intros d; reflexivity | | exact Hnd].
  intros Hin. apply checkIfDuplicateExists_fields in Hin. congruence.
Qed.

Lemma uniqueFields_DELETE (coll : list BookStore) (id : string) :
  uniqueFields coll → uniqueFields (fst (DELETE_api_books_id coll id)).
Proof.
  unfold uniqueFields, DELETE_api_books_id, deleteBook. cbv zeta. cbn [fst].
  intros Hnd. eapply sublist_NoDup; [exact Hnd|].
  apply (fmap_sublist _), DeleteOne_sublist.
Qed.

Lemma ids_PUT (coll : list BookStore) (book : Book) :
  ids (fst (PUT_api_books coll book)) = ids coll.
Proof.
  rewrite PUT_store.
  destruct (checkIfDuplicateExists coll (convertToBookstore book));
    [reflexivity|].
  unfold updateBook. cbv zeta. apply ids_UpdateOne.
Qed.

End HandlerEffects.

(** ** Create, list, update, delete, composed *)

(** X1. A record that a POST inserts is listed last by the next
    [getAllBooks], with the values sent and the hex form of the identifier
    it was written under; the records listed before are listed as they
    were. *)
Theorem created_is_listed (generated : ObjectID) (coll : list BookStore)
    (book : Book) :
  checkIfDuplicateExists coll (convertToBookstore book) = false →
  insertedID generated (convertToBookstore book) ∉ ids coll →
  getAllBooks (fst (POST_api_books generated coll book))
  = (getAllBooks coll ++
     [list_to_map
        [("id", VString (Hex (insertedID generated (convertToBookstore book))));
         ("name", VString (Name book));
         ("author", VString (Author book));
         ("isbn", VString (ISBN book));
         ("pages", VInt (Pages book));
         ("year", VInt (Year book))]])%list.
Proof.
  intros Hguard Hfresh. rewrite POST_inserted by assumption. cbn [fst].
  unfold getAllBooks. cbv zeta. rewrite !Find_all, map_app. reflexivity.
Qed.

Lemma created_is_listed_witness :
  let generated := fst (ObjectIDFromHex "65f0c0de0000000000000001") in
  let dune := mkBook "" "Dune" "Herbert" "0-441-17271-7" 412 1965 in
  ∃ m : gmap string Value,
    getAllBooks (fst (POST_api_books generated [] dune)) = [m] ∧
    m !! "id" = Some (VString "65f0c0de0000000000000001") ∧
    m !! "pages" = Some (VInt 412).
Proof.
  cbv zeta. eexists. split.
  - apply (created_is_listed
             (fst (ObjectIDFromHex "65f0c0de0000000000000001")) []
             (mkBook "" "Dune" "Herbert" "0-441-17271-7" 412 1965));
      [reflexivity | apply not_elem_of_nil].
  - split; vm_compute; reflexivity.
Defined.

(** X2. With distinct identifiers in the store, a DELETE whose path
    identifier is the string [getAllBooks] lists under [id] at position
    [i] removes the record at position [i] and no other, and that
    record's identifier is then gone from the store. *)
Theorem delete_listed (coll : list BookStore) (i : nat)
    (m : gmap string Value) (s : string) :
  uniqueIDs coll →
  getAllBooks coll !! i = Some m → m !! "id" = Some (VString s) →
  DELETE_api_books_id coll s
    = (delete i coll, mkResponse 200 (JSONString "Succesfully deleted entry")) ∧
  fst (ObjectIDFromHex s) ∉ ids (delete i coll).
Proof.
  intros Hnd Hm Hs.
  apply getAllBooks_lookup in Hm as (d & Hd & Hid).
  rewrite Hid in Hs. injection Hs as <-.
  unfold DELETE_api_books_id, deleteBook. cbv zeta.
  rewrite ObjectIDFromHex_Hex. cbn [fst].
  rewrite (DeleteOne_id_at coll i d Hnd Hd). split; [reflexivity|].
  rewrite ids_delete. apply NoDup_delete_absent; [exact Hnd|].
  unfold ids. rewrite list_lookup_fmap, Hd. reflexivity.
Qed.

Lemma delete_listed_witness :
  let held := fst (ObjectIDFromHex "0123456789abcdef01234567") in
  let other := fst (ObjectIDFromHex "0123456789abcdef01234568") in
  let coll := [mkBookStore held "Dune" "Herbert" "0-441-17271-7" 412 1965;
               mkBookStore other "Emma" "Austen" "0-19-953552-0" 448 1815] in
  fst (DELETE_api_books_id coll "0123456789abcdef01234568")
  = [mkBookStore held "Dune" "Herbert" "0-441-17271-7" 412 1965].
Proof.
  cbv zeta.
  pose (coll :=
    [mkBookStore (fst (ObjectIDFromHex "0123456789abcdef01234567"))
                 "Dune" "Herbert" "0-441-17271-7" 412 1965;
     mkBookStore (fst (ObjectIDFromHex "0123456789abcdef01234568"))
                 "Emma" "Austen" "0-19-953552-0" 448 1815]).
  assert (Hnd : uniqueIDs coll).
  { unfold uniqueIDs. apply (bool_decide_unpack _). vm_compute. exact I. }
  destruct (getAllBooks coll !! 1) as [m|] eqn:Hm; [|discriminate Hm].
  assert (Hid : m !! "id" = Some (VString "0123456789abcdef01234568")).
  { injection Hm as <-. vm_compute. reflexivity. }
  destruct (delete_listed coll 1 m "0123456789abcdef01234568" Hnd Hm Hid)
    as [Hdel _].
  change (fst (DELETE_api_books_id coll "0123456789abcdef01234568")
          = delete 1 coll).
  rewrite Hdel. reflexivity.
Defined.

(** X3. With distinct identifiers in the store, a PUT that carries the
    hex form of the identifier of the record at position [i] and five
    values no stored record has replaces the five values of that record,
    keeps its identifier and its position, leaves every other record as it
    is, and answers 200. *)
Theorem update_listed (coll : list BookStore) (i : nat) (d : BookStore)
    (name author isbn : string) (pages year : Z) :
  uniqueIDs coll → coll !! i = Some d →
  (name, author, isbn, pages, year) ∉ map fields coll →
  PUT_api_books coll (mkBook (Hex (ID d)) name author isbn pages year)
  = (<[i := mkBookStore (ID d) name author isbn pages year]> coll,
     mkResponse 200 (JSONString "Updated the book")).
Proof.
  intros Hnd Hd Hnew. unfold PUT_api_books. cbv zeta.
  rewrite convertToBookstore_Hex.
  destruct (checkIfDuplicateExists coll _) eqn:Hguard.
  { apply checkIfDuplicateExists_fields in Hguard. contradiction. }
  f_equal. unfold updateBook. cbv zeta. cbn [ID].
  rewrite (UpdateOne_id_at coll i d _ Hnd Hd). reflexivity.
Qed.

Lemma update_listed_witness :
  let held := fst (ObjectIDFromHex "0123456789abcdef01234567") in
  let coll := [mkBookStore held "Dune" "Herbert" "0-441-17271-7" 412 1965] in
  PUT_api_books coll
    (mkBook "0123456789abcdef01234567" "Dune" "Herbert" "0-441-17271-7" 413 1965)
  = ([mkBookStore held "Dune" "Herbert" "0-441-17271-7" 413 1965],
     mkResponse 200 (JSONString "Updated the book")).
Proof.
  cbv zeta.
  pose (d := mkBookStore (fst (ObjectIDFromHex "0123456789abcdef01234567"))
                         "Dune" "Herbert" "0-441-17271-7" 412 1965).
  apply (update_listed [d] 0 d "Dune" "Herbert" "0-441-17271-7" 413 1965).
  - unfold uniqueIDs. apply (bool_decide_unpack _). vm_compute. exact I.
  - reflexivity.
  - intros H. apply list_elem_of_singleton in H. discriminate H.
Defined.

(** X4. A PUT never adds or removes a record and never changes an
    identifier: the identifiers of the store, in order, are the same
    after it, whatever the request. *)
Theorem update_keeps_identifiers (coll : list BookStore) (book : Book) :
  ids (fst (PUT_api_books coll book)) = ids coll ∧
  length (fst (PUT_api_books coll book)) = length coll.
Proof.
  pose proof (ids_PUT coll book) as H.
  split; [exact H|].
  apply (f_equal (@length ObjectID)) in H. unfold ids in H.
  rewrite !length_map in H. exact H.
Qed.

(** X5. The guard of the PUT handler does not set aside the record being
    updated: a PUT that carries the five values a stored record already
    has is answered 201 with "Duplicate not allowed" and changes nothing,
    whatever identifier it carries, that record's own included. *)
Theorem update_to_stored_values_rejected (coll : list BookStore)
    (d : BookStore) (id : string) :
  d ∈ coll →
  PUT_api_books coll
    (mkBook id (BookName d) (BookAuthor d) (BookISBN d) (BookPages d) (BookYear d))
  = (coll, mkResponse 201 (JSONString "Duplicate not allowed")).
Proof.
  intros Hin. unfold PUT_api_books. cbv zeta.
  destruct (checkIfDuplicateExists coll _) eqn:Hguard; [reflexivity|].
  apply checkIfDuplicateExists_false in Hguard. exfalso. apply Hguard.
  exists d. split; [exact Hin | repeat split].
Qed.

Lemma update_to_stored_values_rejected_witness :
  let held := fst (ObjectIDFromHex "0123456789abcdef01234567") in
  let coll := [mkBookStore held "Dune" "Herbert" "0-441-17271-7" 412 1965] in
  PUT_api_books coll
    (mkBook "0123456789abcdef01234567" "Dune" "Herbert" "0-441-17271-7" 412 1965)
  = (coll, mkResponse 201 (JSONString "Duplicate not allowed")).
Proof.
  cbv zeta.
  apply (update_to_stored_values_rejected
           [mkBookStore (fst (ObjectIDFromHex "0123456789abcdef01234567"))
                        "Dune" "Herbert" "0-441-17271-7" 412 1965]
           (mkBookStore (fst (ObjectIDFromHex "0123456789abcdef01234567"))
                        "Dune" "Herbert" "0-441-17271-7" 412 1965)
           "0123456789abcdef01234567").
  apply list_elem_of_singleton. reflexivity.
Defined.

(** ** Invariants of the collection under the handlers *)

(** X6. Requests served one after the other keep the five descriptive
    values unique: if no two stored records have the same five values
    before, none have after, whatever the requests are. *)
Theorem uniqueFields_serveAll (reqs : list Request) (coll : list BookStore) :
  uniqueFields coll → uniqueFields (fst (serveAll coll reqs)).
Proof.
  revert coll. induction reqs as [|req rest IH]; intros coll Hnd; [exact Hnd|].
  cbn [serveAll].
  assert (Hstep : uniqueFields (fst (serve coll req))).
  { destruct req as [|generated book|book|id]; cbn [serve].
    - exact Hnd.
    - apply uniqueFields_POST, Hnd.
    - apply uniqueFields_PUT, Hnd.
    - apply uniqueFields_DELETE, Hnd. }
  destruct (serve coll req) as [coll' resp]. cbn [fst] in Hstep.
  specialize (IH coll' Hstep).
  destruct (serveAll coll' rest) as [coll'' resps]. exact IH.
Qed.

Lemma uniqueFields_serveAll_witness :
  let generated := fst (ObjectIDFromHex "65f0c0de0000000000000001") in
  let dune := mkBook "" "Dune" "Herbert" "0-441-17271-7" 412 1965 in
  uniqueFields (fst (serveAll [] [POST generated dune; POST generated dune])).
Proof.
  cbv zeta. apply uniqueFields_serveAll. unfold uniqueFields. apply NoDup_nil_2.
Defined.

(** X7. Requests served one after the other keep the identifiers
    distinct: a POST is refused by the store when its identifier is held,
    a PUT changes no identifier, a DELETE only removes. *)
Theorem uniqueIDs_serveAll (reqs : list Request) (coll : list BookStore) :
  uniqueIDs coll → uniqueIDs (fst (serveAll coll reqs)).
Proof.
  revert coll. induction reqs as [|req rest IH]; intros coll Hnd; [exact Hnd|].
  cbn [serveAll].
  assert (Hstep : uniqueIDs (fst (serve coll req))).
  { destruct req as [|generated book|book|id]; cbn [serve].
    - exact Hnd.
    - apply uniqueIDs_POST, Hnd.
    - unfold uniqueIDs. rewrite ids_PUT. exact Hnd.
    - apply uniqueIDs_DELETE, Hnd. }
  destruct (serve coll req) as [coll' resp]. cbn [fst] in Hstep.
  specialize (IH coll' Hstep).
  destruct (serveAll coll' rest) as [coll'' resps]. exact IH.
Qed.

Lemma uniqueIDs_serveAll_witness :
  let generated := fst (ObjectIDFromHex "65f0c0de0000000000000001") in
  let dune := mkBook "" "Dune" "Herbert" "0-441-17271-7" 412 1965 in
  let emma := mkBook "" "Emma" "Austen" "0-19-953552-0" 448 1815 in
  uniqueIDs (fst (serveAll [] [POST generated dune; POST generated emma])).
Proof.
  cbv zeta. apply uniqueIDs_serveAll. unfold uniqueIDs. apply NoDup_nil_2.
Defined.

(** X8. A POST leaves every stored record as it is and where it is: the
    collection after it is the collection before it followed by at most
    one record. *)
Theorem create_only_appends (generated : ObjectID) (coll : list BookStore)
    (book : Book) :
  ∃ added : list BookStore,
    fst (POST_api_books generated coll book) = (coll ++ added)%list ∧
    (length added ≤ 1)%nat.
Proof.
  destruct (checkIfDuplicateExists coll (convertToBookstore book)) eqn:Hguard.
  { rewrite POST_duplicate by exact Hguard.
    exists []. split; [symmetry; apply app_nil_r | cbn; lia]. }
  destruct (decide (insertedID generated (convertToBookstore book) ∈ ids coll))
    as [Hin|Hout].
  - rewrite (POST_insert_error _ _ _ DuplicateKey Hguard).
    + exists []. split; [symmetry; apply app_nil_r | cbn; lia].
    + rewrite InsertOne_taken by exact Hin. reflexivity.
  - rewrite POST_inserted by assumption.
    eexists. split; [reflexivity | cbn; lia].
Qed.

(** X9. A DELETE removes at most one record and touches no other: what
    is left is a sublist of the collection, at most one record shorter,
    whatever the path identifier. *)
Theorem delete_removes_at_most_one (coll : list BookStore) (id : string) :
  fst (DELETE_api_books_id coll id) `sublist_of` coll ∧
  (length coll ≤ S (length (fst (DELETE_api_books_id coll id))))%nat.
Proof.
  unfold DELETE_api_books_id, deleteBook. cbv zeta. cbn [fst].
  apply DeleteOne_sublist.
Qed.

(** X10. With distinct identifiers in the store, DELETE is idempotent:
    the same DELETE a second time leaves the store as the first left
    it. *)
Theorem delete_idempotent (coll : list BookStore) (id : string) :
  uniqueIDs coll →
  fst (DELETE_api_books_id (fst (DELETE_api_books_id coll id)) id)
  = fst (DELETE_api_books_id coll id).
Proof.
  intros Hnd. unfold DELETE_api_books_id. cbv zeta. cbn [fst].
  set (oid := fst (ObjectIDFromHex id)).
  destruct (decide (oid ∈ ids coll)) as [Hin|Hout].
  - unfold ids in Hin. apply list_elem_of_fmap in Hin as (d & Hoid & Hd).
    apply list_elem_of_lookup in Hd as [i Hi].
    assert (Hdel : deleteBook coll oid = delete i coll).
    { unfold deleteBook. cbv zeta. rewrite Hoid.
      apply DeleteOne_id_at; assumption. }
    rewrite Hdel. apply deleteBook_absent.
    rewrite ids_delete, Hoid. apply NoDup_delete_absent; [exact Hnd|].
    unfold ids. rewrite list_lookup_fmap, Hi. reflexivity.
  - rewrite (deleteBook_absent coll oid Hout).
    apply deleteBook_absent, Hout.
Qed.

Lemma delete_idempotent_witness :
  let held := fst (ObjectIDFromHex "0123456789abcdef01234567") in
  let coll := [mkBookStore held "Dune" "Herbert" "0-441-17271-7" 412 1965] in
  fst (DELETE_api_books_id
         (fst (DELETE_api_books_id coll "0123456789abcdef01234567"))
         "0123456789abcdef01234567")
  = fst (DELETE_api_books_id coll "0123456789abcdef01234567").
Proof.
  cbv zeta. apply delete_idempotent.
  unfold uniqueIDs. apply (bool_decide_unpack _). vm_compute. exact I.
Defined.

(** X11. No handler of [/api/books] answers with an error status: the
    status is 200, 201 or 304 for every request on every store. *)
Theorem no_error_status (coll : list BookStore) (req : Request) :
  status (snd (serve coll req)) ∈ [200; 201; 304]%Z ∧
  ¬ isError (status (snd (serve coll req))).
Proof.
  assert (H : status (snd (serve coll req)) ∈ [200; 201; 304]%Z).
  { destruct req as [|generated book|book|id]; cbn [serve].
    - apply elem_of_cons. left. reflexivity.
    - unfold POST_api_books. cbv zeta.
      destruct (checkIfDuplicateExists coll _).
      + cbn. do 2 (apply elem_of_cons; right). apply elem_of_cons. left.
        reflexivity.
      + destruct (saveBook generated coll _) as [coll' res]. cbn.
        apply elem_of_cons. left. reflexivity.
    - unfold PUT_api_books. cbv zeta.
      destruct (checkIfDuplicateExists coll _); cbn.
      + apply elem_of_cons; right. apply elem_of_cons. left. reflexivity.
      + apply elem_of_cons. left. reflexivity.
    - apply elem_of_cons. left. reflexivity. }
  split; [exact H|]. unfold isError.
  rewrite !elem_of_cons in H. destruct H as [->|[->|[->|H]]]; try lia.
  apply elem_of_nil in H. contradiction.
Qed.

(** X12. The identifier of a request is read without regard to the case
    of its hex letters: a DELETE path identifier, or the identifier of a
    wire record, that decodes gives the handler the same identifier as its
    lower-case form. *)
Theorem identifier_case_insensitive (s : string) :
  decodes s →
  (∀ coll, DELETE_api_books_id coll (lowerHex s) = DELETE_api_books_id coll s) ∧
  (∀ name author isbn pages year,
     convertToBookstore (mkBook (lowerHex s) name author isbn pages year)
     = convertToBookstore (mkBook s name author isbn pages year)).
Proof.
  intros Hdec.
  assert (Hlow : ObjectIDFromHex (lowerHex s) = (fst (ObjectIDFromHex s), None)).
  { rewrite <- (Hex_ObjectIDFromHex s Hdec). apply ObjectIDFromHex_Hex. }
  split.
  - intros coll. unfold DELETE_api_books_id. cbv zeta. rewrite Hlow.
    reflexivity.
  - intros name author isbn pages year. unfold convertToBookstore.
    cbn [Book_ID Name Author ISBN Pages Year]. rewrite Hlow. cbn [fst].
    destruct (String.eqb_spec s "") as [->|Hs]; [discriminate Hdec|].
    destruct (String.eqb_spec (lowerHex s) "") as [He|_]; [|reflexivity].
    rewrite He in Hlow. discriminate Hlow.
Qed.

Lemma identifier_case_insensitive_witness :
  let held := fst (ObjectIDFromHex "abcdef0123456789abcdef01") in
  let coll := [mkBookStore held "Dune" "Herbert" "0-441-17271-7" 412 1965] in
  DELETE_api_books_id coll "ABCDEF0123456789ABCDEF01"
  = ([], mkResponse 200 (JSONString "Succesfully deleted entry")).
Proof.
  cbv zeta.
  destruct (identifier_case_insensitive "ABCDEF0123456789ABCDEF01" eq_refl)
    as [Hdel _].
  rewrite <- Hdel. reflexivity.
Defined.

(** ** The page projections *)

(** X13. The three page projections list the stored records in store
    order, one entry per record: entries for one author or one year are
    not merged. The entry of a record carries its identifier in hex under
    [ID] in all three; the author entry is part of the book entry; the
    book entry has no year, which only [findAllYears] gives. *)
Theorem projections_aligned (coll : list BookStore) :
  length (findAllBooks coll) = length coll ∧
  length (findAllAuthors coll) = length coll ∧
  length (findAllYears coll) = length coll ∧
  ∀ i d, coll !! i = Some d →
    ∃ mb ma my : gmap string Value,
      findAllBooks coll !! i = Some mb ∧
      findAllAuthors coll !! i = Some ma ∧
      findAllYears coll !! i = Some my ∧
      mb !! "ID" = Some (VString (Hex (ID d))) ∧
      ma !! "ID" = Some (VString (Hex (ID d))) ∧
      my !! "ID" = Some (VString (Hex (ID d))) ∧
      ma !! "BookAuthor" = Some (VString (BookAuthor d)) ∧
      mb !! "BookAuthor" = Some (VString (BookAuthor d)) ∧
      mb !! "BookYear" = None ∧
      my !! "BookYear" = Some (VInt (BookYear d)).
Proof.
  unfold findAllBooks, findAllAuthors, findAllYears. cbv zeta.
  rewrite !Find_all, !length_map.
  do 3 (split; [reflexivity|]).
  intros i d Hd. do 3 eexists.
  rewrite !list_lookup_fmap, Hd. cbn [fmap option_fmap option_map].
  do 3 (split; [reflexivity|]). repeat split.
Qed.

Lemma projections_aligned_witness :
  let a := fst (ObjectIDFromHex "0123456789abcdef01234567") in
  let b := fst (ObjectIDFromHex "0123456789abcdef01234568") in
  let coll := [mkBookStore a "Emma" "Austen" "0-19-953552-0" 448 1815;
               mkBookStore b "Persuasion" "Austen" "0-19-953555-5" 249 1817] in
  length (findAllAuthors coll) = 2%nat.
Proof.
  cbv zeta.
  destruct (projections_aligned
    [mkBookStore (fst (ObjectIDFromHex "0123456789abcdef01234567"))
                 "Emma" "Austen" "0-19-953552-0" 448 1815;
     mkBookStore (fst (ObjectIDFromHex "0123456789abcdef01234568"))
                 "Persuasion" "Austen" "0-19-953555-5" 249 1817])
    as (_ & Hauthors & _).
  exact Hauthors.
Defined.

(** ** The router, further *)
Section RoutingFurther.

Lemma select_cases (uri : string) :
  Router.select uri = None ∨
  Router.select uri = Some (Router.mkLocation "/" (Some "backend") []) ∨
  Router.select uri
  = Some (Router.mkLocation "/api" None
            [("GET", "get"); ("POST", "post"); ("PUT", "put");
             ("DELETE", "delete")]).
Proof.
  unfold Router.select, Router.locations. cbn [fold_left Router.prefix].
  destruct (String.prefix "/" uri), (String.prefix "/api" uri);
    [right; right | right; left | right; right | left]; reflexivity.
Qed.

Lemma forward_api (method : string) :
  Router.forward
    (Router.mkLocation "/api" None
       [("GET", "get"); ("POST", "post"); ("PUT", "put"); ("DELETE", "delete")])
    method
  = if String.eqb method "DELETE" then Some "delete"
    else if String.eqb method "PUT" then Some "put"
    else if String.eqb method "POST" then Some "post"
    else if String.eqb method "GET" then Some "get"
    else None.
Proof.
  unfold Router.forward.
  cbn [fold_left Router.if_request_method Router.proxy_pass fst snd].
  destruct (String.eqb method "GET"), (String.eqb method "POST"),
    (String.eqb method "PUT"), (String.eqb method "DELETE"); reflexivity.
Qed.

End RoutingFurther.

(** X14. Under [/api] exactly the four methods are forwarded: a request
    whose path begins with [/api] is passed to no pool if and only if its
    method is none of GET, POST, PUT, DELETE; HEAD, PATCH and OPTIONS are
    among those left without a pool. *)
Theorem api_forwards_four_methods_only (method uri : string) :
  String.prefix "/api" uri = true →
  Router.route method uri = None
  ↔ method ∉ ["GET"; "POST"; "PUT"; "DELETE"].
Proof.
  intros Hapi. unfold Router.route. rewrite select_api by exact Hapi.
  rewrite forward_api, !not_elem_of_cons.
  destruct (String.eqb_spec method "DELETE") as [->|Hd].
  { split; [discriminate | intros (_ & _ & _ & H & _); contradiction]. }
  destruct (String.eqb_spec method "PUT") as [->|Hp].
  { split; [discriminate | intros (_ & _ & H & _); contradiction]. }
  destruct (String.eqb_spec method "POST") as [->|Ho].
  { split; [discriminate | intros (_ & H & _); contradiction]. }
  destruct (String.eqb_spec method "GET") as [->|Hg].
  { split; [discriminate | intros (H & _); contradiction]. }
  split; [intros _ | reflexivity].
  repeat split; try assumption. apply not_elem_of_nil.
Qed.

Lemma api_forwards_four_methods_only_witness :
  Router.route "PATCH" "/api/books" = None ∧
  Router.route "HEAD" "/api/books" = None.
Proof.
  split.
  - apply (api_forwards_four_methods_only "PATCH" "/api/books");
      [reflexivity|].
    apply (bool_decide_unpack _). vm_compute. exact I.
  - apply (api_forwards_four_methods_only "HEAD" "/api/books");
      [reflexivity|].
    apply (bool_decide_unpack _). vm_compute. exact I.
Defined.

(** X15. The router passes requests to declared pools only: whatever the
    method and the path, the pool a request is forwarded to is the name of
    one of the [upstream] blocks. *)
Theorem route_targets_declared (method uri pool : string) :
  Router.route method uri = Some pool →
  pool ∈ map fst upstreams.
Proof.
  unfold Router.route.
  destruct (select_cases uri) as [-> | [-> | ->]]; [discriminate| |].
  - intros [= <-]. apply (bool_decide_unpack _). vm_compute. exact I.
  - rewrite forward_api.
    destruct (String.eqb method "DELETE");
      [intros [= <-]; apply (bool_decide_unpack _); vm_compute; exact I|].
    destruct (String.eqb method "PUT");
      [intros [= <-]; apply (bool_decide_unpack _); vm_compute; exact I|].
    destruct (String.eqb method "POST");
      [intros [= <-]; apply (bool_decide_unpack _); vm_compute; exact I|].
    destruct (String.eqb method "GET");
      [intros [= <-]; apply (bool_decide_unpack _); vm_compute; exact I|].
    discriminate.
Qed.

Lemma route_targets_declared_witness :
  "delete" ∈ map fst upstreams.
Proof.
  apply (route_targets_declared "DELETE" "/api/books/0123456789abcdef01234567").
  reflexivity.
Defined.

(** ** Start-up, further *)
Section Seeding.

Lemma documents_store (client : Client) (coll : Collection)
    (docs : list BookStore) :
  Driver.documents (Driver.store client coll docs) coll = docs.
Proof.
  unfold Driver.documents, Driver.store, Driver.database. cbn [databases].
  rewrite lookup_insert_eq. cbn [default from_option id].
  rewrite lookup_insert_eq. reflexivity.
Qed.

(** A record without identifier, used as a filter, selects by the five
    descriptive values. *)
Lemma matches_asFilter (book d : BookStore) :
  ID book = NilObjectID →
  Mongo.matches (asFilter book) d = true ↔ fields d = fields book.
Proof.
  intros Hzero. rewrite <- sameFields_fields, <- matches_book.
  unfold asFilter, IsZero. rewrite bool_decide_eq_true_2 by exact Hzero.
  reflexivity.
Qed.

Lemma Find_app (docs more : list BookStore) (filter : gmap string Value) :
  Mongo.Find (docs ++ more) filter
  = (Mongo.Find docs filter ++ Mongo.Find more filter)%list.
Proof. unfold Mongo.Find. apply List.filter_app. Qed.

(** What the insert of one seed record does to the count for a record. *)
Lemma found_store_app (client : Client) (coll : Collection)
    (book b : BookStore) (id : ObjectID) :
  ID b = NilObjectID →
  found (Driver.store client coll
           (Driver.documents client coll ++ [Mongo.withID id book])%list) coll b
  = (found client coll b + if decide (fields book = fields b) then 1 else 0)%nat.
Proof.
  intros Hzero. unfold found. rewrite documents_store, Find_app, length_app.
  f_equal. unfold Mongo.Find. cbn [List.filter].
  destruct (Mongo.matches (asFilter b) (Mongo.withID id book)) eqn:Hm.
  - apply (matches_asFilter b _ Hzero) in Hm.
    rewrite decide_True by exact Hm. reflexivity.
  - rewrite decide_False; [reflexivity|]. intros Heq.
    apply (matches_asFilter b (Mongo.withID id book) Hzero) in Heq. congruence.
Qed.

(** One round of [prepareData] on a deployment that answers. *)
Lemma prepareData_step_reachable (generated : ObjectID) (client : Client)
    (coll : Collection) (book : BookStore) :
  reachable client = true → ID book = NilObjectID →
  prepareData_step generated client (Some coll) book
  = if (1 <? found client coll book)%nat
    then LogFatal (inr "more records were found")
    else if (found client coll book =? 0)%nat
    then if existsb (Mongo.hasID generated) (Driver.documents client coll)
         then Panic (inl DuplicateKey)
         else Continue
                (Driver.store client coll
                   (Driver.documents client coll
                    ++ [Mongo.withID generated book])%list)
    else Continue client.
Proof.
  intros Hup Hzero. unfold prepareData_step, Driver.Find, found.
  rewrite Hup. destruct (1 <? _)%nat; [reflexivity|].
  destruct (_ =? 0)%nat; [|reflexivity].
  unfold Driver.InsertOne, Mongo.InsertOne, IsZero. rewrite Hup. cbv zeta.
  rewrite bool_decide_eq_true_2 by exact Hzero.
  destruct (existsb _ _); reflexivity.
Qed.

Lemma prepareData_step_unreachable (generated : ObjectID) (client : Client)
    (coll : option Collection) (book : BookStore) :
  reachable client = false →
  prepareData_step generated client coll book = Panic (inr nilDereference).
Proof.
  intros Hdown. unfold prepareData_step, Driver.Find. rewrite Hdown.
  destruct coll; reflexivity.
Qed.

(** A loop of [prepareData] that gets through: every record of the list
    was there at most once before and is there exactly once after, and the
    count of any other record is as before. *)
Lemma prepareData_loop_inv (generated : nat → ObjectID) (coll : Collection)
    (books : list BookStore) :
  Forall (λ b, ID b = NilObjectID) books → NoDup (map fields books) →
  ∀ (i : nat) (client client' : Client),
    reachable client = true →
    prepareData_loop generated i client (Some coll) books = Continue client' →
    reachable client' = true ∧
    (∀ b, b ∈ books →
       (found client coll b ≤ 1)%nat ∧ found client' coll b = 1%nat) ∧
    (∀ b, ID b = NilObjectID → fields b ∉ map fields books →
       found client' coll b = found client coll b).
Proof.
  induction books as [|book rest IH]; intros Hzero Hnd i client client' Hup.
  - intros [= <-]. split; [exact Hup|]. split; [|reflexivity].
    intros b Hb. apply elem_of_nil in Hb. contradiction.
  - apply Forall_cons in Hzero as [Hbook Hrest].
    cbn [map] in Hnd. apply NoDup_cons in Hnd as [Hfresh Hnd].
    cbn [prepareData_loop].
    rewrite prepareData_step_reachable by assumption.
    destruct (1 <? found client coll book)%nat eqn:Hmany; [discriminate|].
    apply Nat.ltb_ge in Hmany.
    assert (Hrest' : ∀ client1,
      reachable client1 = true → found client1 coll book = 1%nat →
      (∀ b, ID b = NilObjectID → fields b ≠ fields book →
         found client1 coll b = found client coll b) →
      prepareData_loop generated (S i) client1 (Some coll) rest
        = Continue client' →
      reachable client' = true ∧
      (∀ b, b ∈ book :: rest →
         (found client coll b ≤ 1)%nat ∧ found client' coll b = 1%nat) ∧
      (∀ b, ID b = NilObjectID → fields b ∉ map fields (book :: rest) →
         found client' coll b = found client coll b)).
    { intros client1 Hup1 Hone Hothers Hloop.
      destruct (IH Hrest Hnd (S i) client1 client' Hup1 Hloop)
        as (Hup' & Hin & Hout).
      split; [exact Hup'|]. split.
      - intros b Hb. apply elem_of_cons in Hb as [->|Hb].
        + split; [exact Hmany|].
          rewrite (Hout book Hbook Hfresh). exact Hone.
        + destruct (Hin b Hb) as [Hle Hone'].
          split; [|exact Hone'].
          rewrite <- (Hothers b); [exact Hle | |].
          * eapply Forall_forall in Hrest; [exact Hrest | exact Hb].
          * intros Heq. apply Hfresh. rewrite <- Heq.
            apply list_elem_of_fmap. exists b.
            split; [reflexivity | exact Hb].
      - intros b Hb Hnot. cbn [map] in Hnot.
        apply not_elem_of_cons in Hnot as [Hne Hnot].
        rewrite (Hout b Hb Hnot). apply Hothers; assumption. }
    destruct (found client coll book =? 0)%nat eqn:Hnone.
    + apply Nat.eqb_eq in Hnone.
      destruct (existsb _ _); [discriminate|].
      apply Hrest'.
      * exact Hup.
      * rewrite found_store_app by exact Hbook.
        rewrite decide_True by reflexivity. lia.
      * intros b Hb Hne. rewrite found_store_app by exact Hb.
        rewrite decide_False by congruence. lia.
    + apply Nat.eqb_neq in Hnone.
      apply Hrest'; [exact Hup | lia | reflexivity].
Qed.

(** Where every record of the list is there exactly once, the loop
    changes nothing. *)
Lemma prepareData_loop_settled (generated : nat → ObjectID) (coll : Collection)
    (books : list BookStore) (i : nat) (client : Client) :
  reachable client = true →
  Forall (λ b, ID b = NilObjectID ∧ found client coll b = 1%nat) books →
  prepareData_loop generated i client (Some coll) books = Continue client.
Proof.
  intros Hup. revert i. induction books as [|book rest IH]; intros i Hall;
    [reflexivity|].
  apply Forall_cons in Hall as [[Hzero Hone] Hrest].
  cbn [prepareData_loop].
  rewrite prepareData_step_reachable by assumption. rewrite Hone.
  cbn. apply IH, Hrest.
Qed.

Lemma startData_zero : Forall (λ b, ID b = NilObjectID) startData.
Proof. repeat constructor. Qed.

Lemma startData_distinct : NoDup (map fields startData).
Proof. apply (bool_decide_unpack _). vm_compute. exact I. Qed.

(** [prepareDatabase] leaves the documents of every collection as they
    are, and the deployment as reachable as it was. *)
Lemma prepareDatabase_documents (client client' : Client)
    (dbName collecName : string) (r : option Collection * option error) :
  prepareDatabase client dbName collecName = Continue (client', r) →
  reachable client' = reachable client ∧
  ∀ coll, Driver.documents client' coll = Driver.documents client coll.
Proof.
  unfold prepareDatabase.
  destruct (Driver.ListCollectionNames client dbName) as [names|err] eqn:Hlist;
    [|intros [= <- _]; split; reflexivity].
  destruct (Contains names collecName) eqn:Hin; cbn [negb];
    [intros [= <- _]; split; reflexivity|].
  assert (Hnone : Driver.database client dbName !! collecName = None).
  { apply eq_None_not_Some. intros Hsome.
    apply (ListCollectionNames_listed _ _ _ collecName Hlist) in Hsome.
    apply Contains_true in Hsome. congruence. }
  assert (Hup : reachable client = true).
  { unfold Driver.ListCollectionNames in Hlist.
    destruct (reachable client); [reflexivity | discriminate]. }
  unfold Driver.RunCommand_create. cbv zeta. rewrite Hup, Hnone. cbn [negb].
  cbn. intros [= <- _]. cbn [reachable]. split; [reflexivity|].
  intros coll. unfold Driver.documents, Driver.database in *. cbn [databases].
  destruct (decide (dbName = dbOf coll)) as [<-|Hdb].
  - rewrite lookup_insert_eq. cbn [default from_option id].
    destruct (decide (collecName = nameOf coll)) as [<-|Hname].
    + rewrite lookup_insert_eq. cbn [default from_option id] in Hnone.
      rewrite Hnone. reflexivity.
    + rewrite lookup_insert_ne by exact Hname. reflexivity.
  - rewrite lookup_insert_ne by exact Hdb. reflexivity.
Qed.

Lemma found_documents (client client' : Client) (coll : Collection)
    (b : BookStore) :
  Driver.documents client' coll = Driver.documents client coll →
  found client' coll b = found client coll b.
Proof. intros H. unfold found. rewrite H. reflexivity. Qed.

(** What a [main] that gets to serving has gone through. *)
Lemma main_Continue_inv (uri : string) (generated : nat → ObjectID)
    (client client2 : Client) (coll : option Collection) :
  main uri generated client = Continue (client2, coll) →
  (String.length uri =? 0)%nat = false ∧
  ∃ client1 err,
    prepareDatabase client "exercise-1" "information"
      = Continue (client1, (coll, err)) ∧
    prepareData generated client1 coll = Continue client2.
Proof.
  unfold main. destruct (String.length uri =? 0)%nat; [discriminate|].
  destruct (prepareDatabase client "exercise-1" "information")
    as [[client1 [coll1 err]]| | |]; cbn [mbind Outcome_bind];
    try discriminate.
  destruct (prepareData generated client1 coll1) as [c2| | |] eqn:Hdata;
    cbn [mbind Outcome_bind]; try discriminate.
  intros [= <- <-]. split; [reflexivity|].
  exists client1, err. split; [reflexivity | exact Hdata].
Qed.

End Seeding.

(** X16. [prepareDatabase] never touches a document: when it returns,
    with or without having created the collection, every collection of
    the deployment reads as it did before, and at most one [create] has
    been sent. *)
Theorem bootstrap_keeps_documents (client client' : Client)
    (dbName collecName : string) (r : option Collection * option error) :
  prepareDatabase client dbName collecName = Continue (client', r) →
  (∀ coll, Driver.documents client' coll = Driver.documents client coll) ∧
  (issued client' = issued client ∨
   issued client' = (issued client ++ [(dbName, collecName)])%list).
Proof.
  intros Hrun.
  split; [apply (prepareDatabase_documents _ _ _ _ _ Hrun)|].
  destruct (Driver.ListCollectionNames client dbName) as [names|err] eqn:Hlist.
  - destruct (Contains names collecName) eqn:Hin.
    + rewrite (prepareDatabase_present _ _ _ _ Hlist Hin) in Hrun.
      injection Hrun as <- _. left. reflexivity.
    + destruct (prepareDatabase_missing _ _ _ _ Hlist Hin)
        as (created & names' & Hcreated & Hsent & _).
      rewrite Hcreated in Hrun. injection Hrun as <- _. right. exact Hsent.
  - rewrite (prepareDatabase_list_error _ _ _ _ Hlist) in Hrun.
    injection Hrun as <- _. left. reflexivity.
Qed.

Lemma bootstrap_keeps_documents_witness :
  let held := fst (ObjectIDFromHex "0123456789abcdef01234567") in
  let dune := mkBookStore held "Dune" "Herbert" "0-441-17271-7" 412 1965 in
  let client := mkClient true {[ "library" := {[ "shelf" := [dune] ]} ]} [] in
  match prepareDatabase client "exercise-1" "information" with
  | Continue (client', _) =>
      Driver.documents client' (mkCollection "library" "shelf") = [dune]
  | _ => False
  end.
Proof.
  cbv zeta.
  destruct (prepareDatabase _ "exercise-1" "information")
    as [[client' r]| | |] eqn:Hrun; try discriminate Hrun.
  destruct (bootstrap_keeps_documents _ _ _ _ _ Hrun) as [Hdocs _].
  rewrite Hdocs. reflexivity.
Defined.

(** X17. Seeding is idempotent: when [prepareData] gets through, each of
    the three records of [startData] is in the collection exactly once,
    and [prepareData] run again on what it left, as at the next start of
    the service, inserts nothing and changes nothing. *)
Theorem seeding_idempotent (generated generated' : nat → ObjectID)
    (client client' : Client) (coll : option Collection) :
  prepareData generated client coll = Continue client' →
  (∃ handle, coll = Some handle ∧
     ∀ b, b ∈ startData → found client' handle b = 1%nat) ∧
  prepareData generated' client' coll = Continue client'.
Proof.
  destruct coll as [handle|]; [|rewrite prepareData_nil; discriminate].
  destruct (reachable client) eqn:Hup.
  - intros Hrun.
    destruct (prepareData_loop_inv generated handle startData
                startData_zero startData_distinct 0 client client' Hup Hrun)
      as (Hup' & Hin & _).
    split; [exists handle; split; [reflexivity | intros b Hb; apply Hin, Hb]|].
    apply prepareData_loop_settled; [exact Hup'|].
    apply Forall_forall. intros b Hb. split; [|apply Hin, Hb].
    pose proof startData_zero as Hzero.
    eapply Forall_forall in Hzero; [exact Hzero | exact Hb].
  - unfold prepareData, startData. cbn [prepareData_loop].
    rewrite prepareData_step_unreachable by exact Hup. discriminate.
Qed.

Lemma seeding_idempotent_witness :
  let generated := λ i : nat,
    fst (ObjectIDFromHex
           (match i with
            | 0 => "65f0c0de0000000000000001"
            | 1 => "65f0c0de0000000000000002"
            | _ => "65f0c0de0000000000000003"
            end)) in
  let handle := mkCollection "exercise-1" "information" in
  match prepareData generated (mkClient true ∅ []) (Some handle) with
  | Continue client' =>
      length (Driver.documents client' handle) = 3%nat ∧
      prepareData generated client' (Some handle) = Continue client'
  | _ => False
  end.
Proof.
  cbv zeta.
  destruct (prepareData _ (mkClient true ∅ []) _) as [client'| | |] eqn:Hrun;
    try (vm_compute in Hrun; discriminate Hrun).
  split.
  - vm_compute in Hrun. injection Hrun as <-. reflexivity.
  - eapply seeding_idempotent. exact Hrun.
Defined.

(** X18. A collection that holds one of the records of [startData] more
    than once stops the start-up: [main] does not get to serving (the
    loop of [prepareData] ends in [log.Fatal], when no earlier round has
    ended it). *)
Theorem duplicated_seed_stops_startup (uri : string)
    (generated : nat → ObjectID) (client : Client) (b : BookStore) :
  b ∈ startData →
  (1 < found client (mkCollection "exercise-1" "information") b)%nat →
  ∀ serving, main uri generated client ≠ Continue serving.
Proof.
  intros Hb Hmany [client2 coll] Hmain.
  apply main_Continue_inv in Hmain as (_ & client1 & err & Hdb & Hdata).
  destruct (prepareDatabase_documents _ _ _ _ _ Hdb) as [Hup Hdocs].
  destruct coll as [handle|]; [|rewrite prepareData_nil in Hdata; discriminate].
  assert (Hhandle : handle = mkCollection "exercise-1" "information").
  { unfold prepareDatabase in Hdb.
    destruct (Driver.ListCollectionNames client "exercise-1");
      [|discriminate Hdb].
    destruct (negb _).
    - destruct (Driver.RunCommand_create client "exercise-1" "information")
        as [created [e|]]; cbn in Hdb; [discriminate Hdb|].
      injection Hdb as _ <-. reflexivity.
    - cbn in Hdb. injection Hdb as _ <-. reflexivity. }
  subst handle.
  destruct (reachable client1) eqn:Hup1.
  - destruct (prepareData_loop_inv generated _ startData
                startData_zero startData_distinct 0 client1 client2 Hup1 Hdata)
      as (_ & Hin & _).
    destruct (Hin b Hb) as [Hle _].
    rewrite (found_documents client client1 _ b (Hdocs _)) in Hle. lia.
  - unfold prepareData, startData in Hdata. cbn [prepareData_loop] in Hdata.
    rewrite prepareData_step_unreachable in Hdata by exact Hup1.
    discriminate Hdata.
Qed.

Lemma duplicated_seed_stops_startup_witness :
  let a := fst (ObjectIDFromHex "0123456789abcdef01234567") in
  let b := fst (ObjectIDFromHex "0123456789abcdef01234568") in
  let twice :=
    [mkBookStore a "Frankenstein" "Mary Shelley" "978-3-649-64609-9" 280 1818;
     mkBookStore b "Frankenstein" "Mary Shelley" "978-3-649-64609-9" 280 1818] in
  let client :=
    mkClient true {[ "exercise-1" := {[ "information" := twice ]} ]} [] in
  match main "mongodb://mongodb:27017" (λ _, NilObjectID) client with
  | Continue _ => False
  | _ => True
  end.
Proof.
  cbv zeta.
  destruct (main _ _ _) as [serving| | |] eqn:Hmain; try exact I.
  revert Hmain.
  apply (duplicated_seed_stops_startup _ _ _
           (mkBookStore NilObjectID "Frankenstein" "Mary Shelley"
                        "978-3-649-64609-9" 280 1818)).
  - apply (bool_decide_unpack _). vm_compute. exact I.
  - vm_compute. lia.
Defined.

(** X19. On a deployment that answers and whose collection holds no
    document, with a connection string and three distinct generated
    identifiers, [main] gets to serving: the collection then holds the
    three records of [startData], in their order, under the generated
    identifiers, and the handlers get the handle on it. *)
Theorem fresh_start_seeds (uri : string) (generated : nat → ObjectID)
    (client : Client) :
  let handle := mkCollection "exercise-1" "information" in
  uri ≠ "" → reachable client = true →
  Driver.documents client handle = [] →
  generated 0%nat ≠ generated 1%nat → generated 0%nat ≠ generated 2%nat →
  generated 1%nat ≠ generated 2%nat →
  ∃ client',
    main uri generated client = Continue (client', Some handle) ∧
    Driver.documents client' handle
    = [mkBookStore (generated 0%nat) "The Vortex" "JosÃ© Eustasio Rivera"
                   "958-30-0804-4" 292 1924;
       mkBookStore (generated 1%nat) "Frankenstein" "Mary Shelley"
                   "978-3-649-64609-9" 280 1818;
       mkBookStore (generated 2%nat) "The Black Cat" "Edgar Allan Poe"
                   "978-3-99168-238-7" 280 1843].
Proof.
  cbv zeta. intros Huri Hup Hempty H01 H02 H12.
  assert (Hdb : ∃ client1,
    prepareDatabase client "exercise-1" "information"
    = Continue (client1, (Some (mkCollection "exercise-1" "information"), None))).
  { destruct (Driver.ListCollectionNames client "exercise-1")
      as [names|err] eqn:Hlist.
    - destruct (Contains names "information") eqn:Hin.
      + exists client. apply (prepareDatabase_present _ _ _ _ Hlist Hin).
      + destruct (prepareDatabase_missing _ _ _ _ Hlist Hin)
          as (created & names' & Hcreated & _).
        exists created. exact Hcreated.
    - unfold Driver.ListCollectionNames in Hlist. rewrite Hup in Hlist.
      discriminate Hlist. }
  destruct Hdb as [client1 Hdb].
  destruct (prepareDatabase_documents _ _ _ _ _ Hdb) as [Hup1 Hdocs1].
  rewrite Hup in Hup1.
  specialize (Hdocs1 (mkCollection "exercise-1" "information")).
  rewrite Hempty in Hdocs1.
  unfold main. destruct (String.eqb_spec uri "") as [->|_]; [contradiction|].
  assert (Hlen : (String.length uri =? 0)%nat = false).
  { destruct uri; [contradiction | reflexivity]. }
  rewrite Hlen, Hdb. cbn [mbind Outcome_bind].
  unfold prepareData, startData. cbn [prepareData_loop].
  (* first round *)
  rewrite prepareData_step_reachable by (try reflexivity; assumption).
  unfold found at 1 2. rewrite Hdocs1. cbn [mbind Outcome_bind].
  change (1 <? length (Mongo.Find [] _))%nat with false.
  change (length (Mongo.Find [] _) =? 0)%nat with true.
  cbn [existsb app mbind Outcome_bind].
  set (client2 := Driver.store client1 _ _).
  assert (Hdocs2 : Driver.documents client2 (mkCollection "exercise-1" "information")
                   = [mkBookStore (generated 0%nat) "The Vortex"
                        "JosÃ© Eustasio Rivera" "958-30-0804-4" 292 1924]).
  { apply documents_store. }
  (* second round *)
  rewrite prepareData_step_reachable by (try reflexivity; assumption).
  unfold found at 1 2. rewrite Hdocs2.
  replace (1 <? length (Mongo.Find _ _))%nat with false by (vm_compute; reflexivity).
  replace (length (Mongo.Find _ _) =? 0)%nat with true by (vm_compute; reflexivity).
  cbn [existsb]. unfold Mongo.hasID at 1. cbn [ID].
  rewrite bool_decide_eq_false_2 by exact H01.
  cbn [orb app mbind Outcome_bind].
  set (client3 := Driver.store client2 _ _).
  assert (Hdocs3 : Driver.documents client3 (mkCollection "exercise-1" "information")
                   = [mkBookStore (generated 0%nat) "The Vortex"
                        "JosÃ© Eustasio Rivera" "958-30-0804-4" 292 1924;
                      mkBookStore (generated 1%nat) "Frankenstein"
                        "Mary Shelley" "978-3-649-64609-9" 280 1818]).
  { apply documents_store. }
  (* third round *)
  rewrite prepareData_step_reachable by (try reflexivity; assumption).
  unfold found at 1 2. rewrite Hdocs3.
  replace (1 <? length (Mongo.Find _ _))%nat with false by (vm_compute; reflexivity).
  replace (length (Mongo.Find _ _) =? 0)%nat with true by (vm_compute; reflexivity).
  cbn [existsb]. unfold Mongo.hasID at 1 2. cbn [ID].
  rewrite !bool_decide_eq_false_2 by assumption.
  cbn [orb app mbind Outcome_bind].
  eexists. split; [reflexivity|]. apply documents_store.
Qed.

Lemma fresh_start_seeds_witness :
  let generated := λ i : nat,
    fst (ObjectIDFromHex
           (match i with
            | 0 => "65f0c0de0000000000000001"
            | 1 => "65f0c0de0000000000000002"
            | _ => "65f0c0de0000000000000003"
            end)) in
  ∃ client',
    main "mongodb://mongodb:27017" generated (mkClient true ∅ [])
      = Continue (client', Some (mkCollection "exercise-1" "information")) ∧
    length (Driver.documents client' (mkCollection "exercise-1" "information"))
      = 3%nat.
Proof.
  cbv zeta.
  edestruct (fresh_start_seeds "mongodb://mongodb:27017"
               (λ i : nat,
                  fst (ObjectIDFromHex
                         (match i with
                          | 0 => "65f0c0de0000000000000001"
                          | 1 => "65f0c0de0000000000000002"
                          | _ => "65f0c0de0000000000000003"
                          end)))
               (mkClient true ∅ []))
    as (client' & Hmain & Hdocs);
    [discriminate | reflexivity | reflexivity
     | vm_compute; discriminate | vm_compute; discriminate
     | vm_compute; discriminate |].
  exists client'. split; [exact Hmain|]. rewrite Hdocs. reflexivity.
Defined.

(** ** Further compositions *)
Section Compositions.

Lemma DeleteOne_last (coll : list BookStore) (d : BookStore) :
  ID d ∉ ids coll →
  fst (Mongo.DeleteOne (coll ++ [d]) {[ "_id" := VObjectID (ID d) ]}) = coll.
Proof.
  induction coll as [|x rest IH]; cbn [ids map app Mongo.DeleteOne].
  - intros _. rewrite matches_id. unfold Mongo.hasID.
    rewrite bool_decide_eq_true_2 by reflexivity. reflexivity.
  - rewrite not_elem_of_cons. intros [Hne Hrest].
    rewrite matches_id. unfold Mongo.hasID.
    rewrite bool_decide_eq_false_2 by congruence.
    specialize (IH Hrest).
    destruct (Mongo.DeleteOne (rest ++ [d]) _) as [rest' n]. cbn [fst] in *.
    rewrite IH. reflexivity.
Qed.

(** The digits [Encode] writes are digits and the letters [a]..[f]. *)
Lemma Encode_lower (src : list ascii) :
  forallb isLowerHexChar (Hex.Encode src) = true.
Proof.
  induction src as [|v rest IH]; [reflexivity|].
  cbn [Hex.Encode forallb]. rewrite IH.
  destruct v as [[] [] [] [] [] [] [] []]; reflexivity.
Qed.

Lemma Hex_wellformed (id : ObjectID) :
  String.length (Hex id) = 24%nat ∧ isLowerHex (Hex id) = true.
Proof.
  split; [reflexivity|]. unfold isLowerHex, Hex.
  rewrite list_ascii_of_string_of_list_ascii. apply Encode_lower.
Qed.

End Compositions.

(** X20. A create followed by the delete of the identifier it answered
    with gives the collection back as it was: the DELETE whose path is
    the hex form of the identifier a POST inserted under removes that
    record and nothing else. *)
Theorem create_then_delete (generated : ObjectID) (coll : list BookStore)
    (book : Book) :
  checkIfDuplicateExists coll (convertToBookstore book) = false →
  insertedID generated (convertToBookstore book) ∉ ids coll →
  fst (DELETE_api_books_id
         (fst (POST_api_books generated coll book))
         (Hex (insertedID generated (convertToBookstore book))))
  = coll.
Proof.
  intros Hguard Hfresh. rewrite POST_inserted by assumption. cbn [fst].
  unfold DELETE_api_books_id, deleteBook. cbv zeta.
  rewrite ObjectIDFromHex_Hex. cbn [fst].
  apply (DeleteOne_last coll
           (Mongo.withID (insertedID generated (convertToBookstore book))
                         (convertToBookstore book))).
  exact Hfresh.
Qed.

Lemma create_then_delete_witness :
  let generated := fst (ObjectIDFromHex "65f0c0de0000000000000001") in
  let dune := mkBook "" "Dune" "Herbert" "0-441-17271-7" 412 1965 in
  fst (DELETE_api_books_id (fst (POST_api_books generated [] dune))
         "65f0c0de0000000000000001")
  = [].
Proof.
  cbv zeta.
  apply (create_then_delete
           (fst (ObjectIDFromHex "65f0c0de0000000000000001")) []
           (mkBook "" "Dune" "Herbert" "0-441-17271-7" 412 1965));
    [reflexivity | apply not_elem_of_nil].
Defined.

(** X21. A PUT for an identifier that no stored record has, with five
    values that no stored record has, changes nothing and is answered
    200 with "Updated the book" all the same: the handler does not tell
    an update that matched from one that did not. *)
Theorem update_unknown_identifier (coll : list BookStore) (book : Book) :
  ID (convertToBookstore book) ∉ ids coll →
  fields (convertToBookstore book) ∉ map fields coll →
  PUT_api_books coll book
  = (coll, mkResponse 200 (JSONString "Updated the book")).
Proof.
  intros Hid Hnew. unfold PUT_api_books. cbv zeta.
  destruct (checkIfDuplicateExists coll (convertToBookstore book)) eqn:Hguard.
  { apply checkIfDuplicateExists_fields in Hguard. contradiction. }
  rewrite updateBook_absent by exact Hid. reflexivity.
Qed.

Lemma update_unknown_identifier_witness :
  let held := fst (ObjectIDFromHex "0123456789abcdef01234567") in
  let coll := [mkBookStore held "Dune" "Herbert" "0-441-17271-7" 412 1965] in
  PUT_api_books coll
    (mkBook "ffffffffffffffffffffffff" "Emma" "Austen" "0-19-953552-0" 448 1815)
  = (coll, mkResponse 200 (JSONString "Updated the book")).
Proof.
  cbv zeta.
  apply (update_unknown_identifier
           [mkBookStore (fst (ObjectIDFromHex "0123456789abcdef01234567"))
                        "Dune" "Herbert" "0-441-17271-7" 412 1965]
           (mkBook "ffffffffffffffffffffffff" "Emma" "Austen" "0-19-953552-0"
                   448 1815)).
  - apply (bool_decide_unpack _). vm_compute. exact I.
  - apply (bool_decide_unpack _). vm_compute. exact I.
Defined.

(** X22. Every identifier [getAllBooks] lists is well formed: the entry
    of the record at position [i] has under [id] a string of 24
    characters, digits and the letters [a]..[f] only, and decoding that
    string gives the identifier of the record, without error. *)
Theorem listed_identifier_wellformed (coll : list BookStore) (i : nat)
    (d : BookStore) :
  coll !! i = Some d →
  ∃ (m : gmap string Value) (s : string),
    getAllBooks coll !! i = Some m ∧ m !! "id" = Some (VString s) ∧
    String.length s = 24%nat ∧ isLowerHex s = true ∧
    ObjectIDFromHex s = (ID d, None).
Proof.
  intros Hd. unfold getAllBooks. cbv zeta.
  rewrite Find_all, list_lookup_fmap, Hd. cbn [fmap option_fmap option_map].
  eexists. exists (Hex (ID d)). split; [reflexivity|].
  split; [reflexivity|].
  destruct (Hex_wellformed (ID d)) as [Hlen Hlow].
  split; [exact Hlen|]. split; [exact Hlow|]. apply ObjectIDFromHex_Hex.
Qed.

Lemma listed_identifier_wellformed_witness :
  let held := fst (ObjectIDFromHex "ABCDEF0123456789ABCDEF01") in
  let coll := [mkBookStore held "Dune" "Herbert" "0-441-17271-7" 412 1965] in
  ∃ (m : gmap string Value) (s : string),
    getAllBooks coll !! 0%nat = Some m ∧ m !! "id" = Some (VString s) ∧
    isLowerHex s = true.
Proof.
  cbv zeta.
  destruct (listed_identifier_wellformed
              [mkBookStore (fst (ObjectIDFromHex "ABCDEF0123456789ABCDEF01"))
                           "Dune" "Herbert" "0-441-17271-7" 412 1965]
              0 _ eq_refl)
    as (m & s & Hm & Hs & _ & Hlow & _).
  exists m, s. split; [exact Hm|]. split; [exact Hs | exact Hlow].
Defined.
